(** * Longitudinal vehicle model: the [Vehicle] class of
    Course_1_Module_4/Longitudinal_Vehicle_Model.ipynb

    The notebook defines a class [Vehicle] whose instances hold eighteen
    numeric attributes (twelve model parameters, the sample time and five
    state variables), a method [reset] and a method [step] that advances
    the state by one sample time; its cells then drive one such object.

    The embedding follows the Python text statement by statement.  The
    arithmetic of the source is kept abstract in the class [Number] and
    read in two ways:
    - [real_number]: exact real arithmetic, the arithmetic the model
      equations are written in;
    - [float_number]: binary64 arithmetic as CPython and numpy carry it
      out, where a number is a Python float or a [numpy.float64], the two
      run-time classes that differ on a zero divisor and on an overflowing
      power; [step_logged] is [step] in this arithmetic together with the
      [RuntimeWarning]s that numpy emits on the way. *)

From Stdlib Require Import List Bool QArith Reals Lra Lia Floats.
From Stdlib Require Uint63.

Set Implicit Arguments.
Set Warnings "-inexact-float".

(** * Part I: the program *)

(** ** Exceptions and fallible expressions *)

(** The exceptions that the arithmetic of [step] can raise. *)
Inductive exn : Set :=
| ZeroDivisionError
| OverflowError.

(** The value of an expression, or the exception it raised. *)
Inductive result (A : Type) : Type :=
| Ok (a : A)
| Raise (e : exn).

Arguments Ok {A} a.
Arguments Raise {A} e.

(** ** The numbers of the source *)

(** What [step] and the notebook's cells ask of their numbers.  [lit]
    reads a numeric literal of the source, [div] is Python's [/] and [sqr]
    is [e ** 2]; both can raise.  [np_sin] is [np.sin], and [np_float64]
    is the conversion numpy applies to what it stores in an array. *)
Class Number (T : Type) : Type := {
  lit : Q -> T;
  add : T -> T -> T;
  sub : T -> T -> T;
  mul : T -> T -> T;
  div : T -> T -> result T;
  sqr : T -> result T;
  leb : T -> T -> bool;
  ltb : T -> T -> bool;
  np_sin : T -> T;
  np_float64 : T -> T
}.

Declare Scope py_scope.
Delimit Scope py_scope with py.
Notation "n + d" := (add n d) : py_scope.
Notation "n - d" := (sub n d) : py_scope.
Notation "n * d" := (mul n d) : py_scope.
Notation "n <=? d" := (leb n d) : py_scope.
Notation "n <? d" := (ltb n d) : py_scope.
Notation "n >=? d" := (leb d n) (at level 70) : py_scope.
Notation "n >? d" := (ltb d n) (at level 70) : py_scope.

(** ** The object *)

(** The attributes that [__init__] creates on [self], in its order. *)
Record Vehicle (T : Type) : Type := {
  a_0 : T;
  a_1 : T;
  a_2 : T;
  GR : T;
  r_e : T;
  J_e : T;
  m : T;
  g : T;
  c_a : T;
  c_r1 : T;
  c : T;
  F_max : T;
  x : T;
  v : T;
  a : T;
  w_e : T;
  w_e_dot : T;
  sample_time : T
}.

(** How a call of [step] ends: normally (the method returns [None], so the
    object is all there is to observe), or with an exception, the object
    keeping the assignments made before it. *)
Inductive outcome (T : Type) : Type :=
| Normal (self : Vehicle T)
| Raised (e : exn) (self : Vehicle T).

Arguments Normal {T} self.
Arguments Raised {T} e self.

(** The object an outcome leaves behind. *)
Definition object {T : Type} (o : outcome T) : Vehicle T :=
  match o with
  | Normal self => self
  | Raised _ self => self
  end.

Notation "'try_' y ':=' e 'leaving' self 'in' k" :=
  (match e with
   | Ok y => k
   | Raise ex => Raised ex self
   end)
  (at level 10, y name, e at level 200, self at level 0, k at level 200,
   only parsing).

Section Model.

Context {T : Type} {num : Number T}.

Local Open Scope list_scope.
Local Open Scope py_scope.

(** Assignments [self.x = n], ..., [self.w_e_dot = n]. *)
Definition set_x (self : Vehicle T) (n : T) : Vehicle T :=
  {| a_0 := a_0 self; a_1 := a_1 self; a_2 := a_2 self; GR := GR self;
     r_e := r_e self; J_e := J_e self; m := m self; g := g self;
     c_a := c_a self; c_r1 := c_r1 self; c := c self; F_max := F_max self;
     x := n; v := v self; a := a self; w_e := w_e self;
     w_e_dot := w_e_dot self; sample_time := sample_time self |}.

Definition set_v (self : Vehicle T) (n : T) : Vehicle T :=
  {| a_0 := a_0 self; a_1 := a_1 self; a_2 := a_2 self; GR := GR self;
     r_e := r_e self; J_e := J_e self; m := m self; g := g self;
     c_a := c_a self; c_r1 := c_r1 self; c := c self; F_max := F_max self;
     x := x self; v := n; a := a self; w_e := w_e self;
     w_e_dot := w_e_dot self; sample_time := sample_time self |}.

Definition set_a (self : Vehicle T) (n : T) : Vehicle T :=
  {| a_0 := a_0 self; a_1 := a_1 self; a_2 := a_2 self; GR := GR self;
     r_e := r_e self; J_e := J_e self; m := m self; g := g self;
     c_a := c_a self; c_r1 := c_r1 self; c := c self; F_max := F_max self;
     x := x self; v := v self; a := n; w_e := w_e self;
     w_e_dot := w_e_dot self; sample_time := sample_time self |}.

Definition set_w_e (self : Vehicle T) (n : T) : Vehicle T :=
  {| a_0 := a_0 self; a_1 := a_1 self; a_2 := a_2 self; GR := GR self;
     r_e := r_e self; J_e := J_e self; m := m self; g := g self;
     c_a := c_a self; c_r1 := c_r1 self; c := c self; F_max := F_max self;
     x := x self; v := v self; a := a self; w_e := n;
     w_e_dot := w_e_dot self; sample_time := sample_time self |}.

Definition set_w_e_dot (self : Vehicle T) (n : T) : Vehicle T :=
  {| a_0 := a_0 self; a_1 := a_1 self; a_2 := a_2 self; GR := GR self;
     r_e := r_e self; J_e := J_e self; m := m self; g := g self;
     c_a := c_a self; c_r1 := c_r1 self; c := c self; F_max := F_max self;
     x := x self; v := v self; a := a self; w_e := w_e self;
     w_e_dot := n; sample_time := sample_time self |}.

(** [Vehicle.__init__]: the object [Vehicle()] returns. *)
Definition init : Vehicle T :=
  {| a_0 := lit 400;
     a_1 := lit 0.1;
     a_2 := lit (-0.0002);
     GR := lit 0.35;
     r_e := lit 0.3;
     J_e := lit 10;
     m := lit 2000;
     g := lit 9.81;
     c_a := lit 1.36;
     c_r1 := lit 0.01;
     c := lit 10000;
     F_max := lit 10000;
     x := lit 0;
     v := lit 5;
     a := lit 0;
     w_e := lit 100;
     w_e_dot := lit 0;
     sample_time := lit 0.01 |}.

(** [Vehicle.reset]: five assignments, no argument, nothing that can
    raise. *)
Definition reset (self : Vehicle T) : Vehicle T :=
  let self := set_x self (lit 0) in
  let self := set_v self (lit 5) in
  let self := set_a self (lit 0) in
  let self := set_w_e self (lit 100) in
  let self := set_w_e_dot self (lit 0) in
  self.

(** [Vehicle.step], statement by statement.  Every read of an attribute
    sees the assignments made before it, and an exception leaves the
    object as the assignments made so far have it. *)
Definition step (self : Vehicle T) (throttle alpha : T) : outcome T :=
  let self := set_x self (x self + v self * sample_time self) in
  try_ s := div (GR self * w_e self * r_e self - v self) (v self)
    leaving self in
  let F_x := c self * s in
  let F_x := if F_x >=? F_max self then F_max self else F_x in
  let F_g := m self * g self * np_sin alpha in
  let R_x := c_r1 self * v self in
  try_ v_2 := sqr (v self) leaving self in
  let F_aero := c_a self * v_2 in
  let F_load := F_aero + R_x + F_g in
  let self := set_v self (v self + a self * sample_time self) in
  try_ a' := div (F_x - F_load) (m self) leaving self in
  let self := set_a self a' in
  try_ w_e_2 := sqr (w_e self) leaving self in
  let T_e := throttle * (a_0 self + a_1 self * w_e self + a_2 self * w_e_2) in
  let self := set_w_e self (w_e self + w_e_dot self * sample_time self) in
  try_ w_e_dot' := div (T_e - GR self * r_e self * F_load) (J_e self)
    leaving self in
  let self := set_w_e_dot self w_e_dot' in
  Normal self.

(** The loop of the constant-input cells:
    [for i in range(n): model.step(throttle, alpha)].  An exception ends
    the loop. *)
Fixpoint steps (n : nat) (self : Vehicle T) (throttle alpha : T)
  : outcome T :=
  match n with
  | O => Normal self
  | S n' =>
      match step self throttle alpha with
      | Normal self' => steps n' self' throttle alpha
      | Raised e self' => Raised e self'
      end
  end.

(** Any finite sequence of [step] calls, one pair of inputs per call. *)
Fixpoint drive (inputs : list (T * T)) (self : Vehicle T) : outcome T :=
  match inputs with
  | nil => Normal self
  | (throttle, alpha) :: rest =>
      match step self throttle alpha with
      | Normal self' => drive rest self'
      | Raised e self' => Raised e self'
      end
  end.

(** *** The ramp cell *)

(** Item [i] of [np.arange(start, stop, step)]: numpy stores the first two
    items and fills the others from their difference. *)
Definition np_arange_item (start step : T) (i : nat) : T :=
  let first := np_float64 start in
  let next := np_float64 (start + step) in
  match i with
  | O => first
  | S O => next
  | _ => first + lit (inject_Z (Z.of_nat i)) * (next - first)
  end.

(** [t_data = np.arange(0, time_end, sample_time)], with the notebook's
    [sample_time = 0.01]. *)
Definition t_data (i : nat) : T := np_arange_item (lit 0) (lit 0.01) i.

(** The throttle the ramp loop computes from [t_data[i]]; when no branch
    is taken the variable [throttle] keeps the value it had. *)
Definition ramp_throttle (t throttle : T) : result T :=
  if t <=? lit 5 then
    match div (lit 0.5 - lit 0.2) (lit 5) with
    | Ok slope => Ok (lit 0.2 + slope * t)
    | Raise e => Raise e
    end
  else if (t >? lit 5) && (t <=? lit 15) then Ok (lit 0.5)
  else if t >? lit 15 then
    match div (lit 0 - lit 0.5) (lit 5) with
    | Ok slope => Ok (lit 0.5 + slope * (t - lit 15))
    | Raise e => Raise e
    end
  else Ok throttle.

(** What the loop stores at [throttle_data[i]]. *)
Definition throttle_data (i : nat) (throttle : T) : result T :=
  match ramp_throttle (t_data i) throttle with
  | Ok throttle' => Ok (np_float64 throttle')
  | Raise e => Raise e
  end.

(** *** Objects and what they share *)

(** The two objects agree on the twelve model parameters and on the
    sample time. *)
Definition same_parameters (self self' : Vehicle T) : Prop :=
  a_0 self' = a_0 self /\ a_1 self' = a_1 self /\ a_2 self' = a_2 self /\
  GR self' = GR self /\ r_e self' = r_e self /\ J_e self' = J_e self /\
  m self' = m self /\ g self' = g self /\ c_a self' = c_a self /\
  c_r1 self' = c_r1 self /\ c self' = c self /\ F_max self' = F_max self /\
  sample_time self' = sample_time self.

(** The two objects agree on the five state variables. *)
Definition same_state (self self' : Vehicle T) : Prop :=
  x self' = x self /\ v self' = v self /\ a self' = a self /\
  w_e self' = w_e self /\ w_e_dot self' = w_e_dot self.

(** The objects a program can reach through the methods: the one
    [Vehicle()] builds, and what [step] (however it ends) and [reset] make
    of such an object. *)
Inductive reachable : Vehicle T -> Prop :=
| reachable_init : reachable init
| reachable_step self throttle alpha :
    reachable self -> reachable (object (step self throttle alpha))
| reachable_reset self :
    reachable self -> reachable (reset self).

End Model.

(** ** Exact real arithmetic *)

(** The numbers of the model equations: reals, with Python's division,
    which raises on a zero divisor.  Nothing is rounded and nothing
    overflows.  This is the arithmetic of the equations, not that of a
    run-time class: where a call of the program raises, and where it does
    not, is [float_number]'s to say. *)
#[export] Instance real_number : Number R := {
  lit := Q2R;
  add := Rplus;
  sub := Rminus;
  mul := Rmult;
  div n d := if Req_dec_T d 0 then Raise ZeroDivisionError else Ok (n / d)%R;
  sqr n := Ok (n ^ 2)%R;
  leb n d := if Rle_dec n d then true else false;
  ltb n d := if Rlt_dec n d then true else false;
  np_sin := sin;
  np_float64 n := n
}.

(** *** The update rule in the words of the specification *)

Section Scheme.

Local Open Scope R_scope.

Implicit Types self : Vehicle R.

(** Longitudinal slip ratio [s = (GR w_e r_e - v) / v]. *)
Definition slip_ratio self : R :=
  (GR self * w_e self * r_e self - v self) / v self.

(** Tire force: [c s], replaced by [F_max] when it reaches [F_max]. *)
Definition tire_force self : R :=
  if Rle_dec (F_max self) (c self * slip_ratio self)
  then F_max self
  else c self * slip_ratio self.

(** Load force: aerodynamic drag, rolling resistance and gravity. *)
Definition load_force self (incline_angle : R) : R :=
  c_a self * v self ^ 2 + c_r1 self * v self
  + m self * g self * sin incline_angle.

(** Engine torque of the quadratic torque map. *)
Definition engine_torque self (throttle : R) : R :=
  throttle * (a_0 self + a_1 self * w_e self + a_2 self * w_e self ^ 2).

(** The lagged forward Euler scheme: position, velocity and engine speed
    advance by the derivatives the object held, and the two derivatives are
    recomputed, everything from the values before the step. *)
Definition lagged_euler self (throttle incline_angle : R) : Vehicle R :=
  {| a_0 := a_0 self; a_1 := a_1 self; a_2 := a_2 self; GR := GR self;
     r_e := r_e self; J_e := J_e self; m := m self; g := g self;
     c_a := c_a self; c_r1 := c_r1 self; c := c self; F_max := F_max self;
     x := x self + v self * sample_time self;
     v := v self + a self * sample_time self;
     a := (tire_force self - load_force self incline_angle) / m self;
     w_e := w_e self + w_e_dot self * sample_time self;
     w_e_dot :=
       (engine_torque self throttle
        - GR self * r_e self * load_force self incline_angle) / J_e self;
     sample_time := sample_time self |}.

(** What holds of the object after [k] steps with zero inputs, for the
    first twenty steps: the velocity has not left [5, 6], the engine has
    barely slowed, and the acceleration is positive once computed. *)
Definition coasting (k : nat) self : Prop :=
  same_parameters init self /\
  5 <= v self <= 5 + 0.05 * INR k /\
  100 - 0.01 * INR k <= w_e self <= 100 /\
  0 <= a self <= 5 /\
  ((1 <= k)%nat -> 0 < a self) /\
  -1 <= w_e_dot self <= 0.

End Scheme.

(** ** Binary64 arithmetic, as CPython and numpy carry it out *)

(** The run-time class of a number.  Python's [float] raises on a zero
    divisor and on an overflowing power; [numpy.float64] returns an
    infinity or a NaN instead (and warns).  An operation with a
    [numpy.float64] operand is numpy's and returns a [numpy.float64].
    Python's [int] is not told apart from [float]: the integer attributes
    and literals of the notebook are held as the floats of the same value,
    which is what every operation of [step] on them makes of them. *)
Inductive float_class : Set :=
| PyFloat
| NpFloat64.

Record pynum : Set := {
  class_of : float_class;
  value : float
}.

Definition python (f : float) : pynum :=
  {| class_of := PyFloat; value := f |}.

Definition numpy (f : float) : pynum :=
  {| class_of := NpFloat64; value := f |}.

(** The class of the result of a binary operation. *)
Definition result_class (k1 k2 : float_class) : float_class :=
  match k1, k2 with
  | PyFloat, PyFloat => PyFloat
  | _, _ => NpFloat64
  end.

Definition binop (op : float -> float -> float) (n d : pynum) : pynum :=
  {| class_of := result_class (class_of n) (class_of d);
     value := op (value n) (value d) |}.

(** The float of an integer (exact below [2^53]). *)
Definition float_of_Z (z : Z) : float :=
  match z with
  | Z0 => PrimFloat.zero
  | Zpos _ => PrimFloat.of_uint63 (Uint63.of_Z z)
  | Zneg p => PrimFloat.opp (PrimFloat.of_uint63 (Uint63.of_Z (Zpos p)))
  end.

(** A decimal literal denotes the double nearest to it: the correctly
    rounded quotient of its digits by its power of ten. *)
Definition float_lit (q : Q) : pynum :=
  python (PrimFloat.div (float_of_Z (Qnum q)) (float_of_Z (Zpos (Qden q)))).

(** [n / d]: Python's float division raises on a zero divisor, numpy's
    does not. *)
Definition float_div (n d : pynum) : result pynum :=
  match result_class (class_of n) (class_of d) with
  | PyFloat =>
      if PrimFloat.is_zero (value d) then Raise ZeroDivisionError
      else Ok (python (PrimFloat.div (value n) (value d)))
  | NpFloat64 => Ok (numpy (PrimFloat.div (value n) (value d)))
  end.

Section Binary64.

(** The two functions of the C library that the arithmetic of [step]
    calls: [sin], and [pow] at the exponent 2. *)
Variables libm_sin libm_pow2 : float -> float.

(** [n ** 2]: Python's float power raises when a finite base overflows,
    numpy's does not. *)
Definition float_sqr (n : pynum) : result pynum :=
  match class_of n with
  | PyFloat =>
      if PrimFloat.is_finite (value n)
         && PrimFloat.is_infinity (libm_pow2 (value n))
      then Raise OverflowError
      else Ok (python (libm_pow2 (value n)))
  | NpFloat64 => Ok (numpy (libm_pow2 (value n)))
  end.

Definition float_number : Number pynum := {|
  lit := float_lit;
  add := binop PrimFloat.add;
  sub := binop PrimFloat.sub;
  mul := binop PrimFloat.mul;
  div := float_div;
  sqr := float_sqr;
  leb n d := PrimFloat.leb (value n) (value d);
  ltb n d := PrimFloat.ltb (value n) (value d);
  np_sin n := numpy (libm_sin (value n));
  np_float64 n := numpy (value n)
|}.

(** The slip ratio and the load force that [step] computes, as floats. *)
Definition float_slip_ratio (self : Vehicle pynum) : float :=
  ((value (GR self) * value (w_e self) * value (r_e self) - value (v self))
   / value (v self))%float.

Definition float_load_force (self : Vehicle pynum) (alpha : pynum) : float :=
  (value (c_a self) * libm_pow2 (value (v self))
   + value (c_r1 self) * value (v self)
   + value (m self) * value (g self) * libm_sin (value alpha))%float.

End Binary64.

(** Two functions to run the binary64 model with: the first-order sine,
    which is the sine at zero, the only incline the constant-input cells
    pass, and the rounded product as the square. *)
Definition sin_first_order (f : float) : float := f.

Definition rounded_square (f : float) : float := (f * f)%float.

(** ** What a call of [step] reports besides its object *)

(** numpy checks the floating-point status after each of its operations
    and, with its default error state, emits a [RuntimeWarning] for a
    division by zero, an overflow or an invalid operation (an underflow is
    ignored); the operations of Python's own floats emit none. *)
Inductive RuntimeWarning : Set :=
| divide_by_zero
| overflow
| invalid.

(** The status of an operation of IEEE 754 with operands [n] and [d] and
    result [r]: invalid when a NaN comes out of operands that are none,
    division by zero when a finite number is divided by a zero, overflow
    when an infinity comes out of finite operands otherwise. *)
Definition ieee_warnings (division : bool) (n d r : float)
  : list RuntimeWarning :=
  if PrimFloat.is_nan r && negb (PrimFloat.is_nan n)
     && negb (PrimFloat.is_nan d)
  then invalid :: nil
  else if PrimFloat.is_infinity r && PrimFloat.is_finite n
          && PrimFloat.is_finite d
  then (if division && PrimFloat.is_zero d then divide_by_zero else overflow)
       :: nil
  else nil.

(** The same for a function of one argument. *)
Definition ieee_warnings_1 (n r : float) : list RuntimeWarning :=
  if PrimFloat.is_nan r && negb (PrimFloat.is_nan n) then invalid :: nil
  else if PrimFloat.is_infinity r && PrimFloat.is_finite n
  then overflow :: nil
  else nil.

(** What a binary operation emits: nothing between Python numbers. *)
Definition binop_warnings
  (division : bool) (op : float -> float -> float) (n d : pynum)
  : list RuntimeWarning :=
  match result_class (class_of n) (class_of d) with
  | PyFloat => nil
  | NpFloat64 =>
      ieee_warnings division (value n) (value d) (op (value n) (value d))
  end.

(** A value with the warnings its evaluation emitted, in their order. *)
Definition logged (A : Type) : Type := (list RuntimeWarning * A)%type.

(** The warnings [w], then what [k] emits and gives. *)
Definition after {A : Type} (w : list RuntimeWarning) (k : logged A)
  : logged A :=
  (w ++ fst k, snd k).

Notation "'log_' y ':=' e 'in' k" :=
  (let '(w, y) := e in after w k)
  (at level 10, y name, e at level 200, k at level 200, only parsing).

Notation "'try_log_' y ':=' e 'leaving' self 'in' k" :=
  (let '(w, r) := e in
   match r with
   | Ok y => after w k
   | Raise ex => (w, Raised ex self)
   end)
  (at level 10, y name, e at level 200, self at level 0, k at level 200,
   only parsing).

Section Warnings.

Variables libm_sin libm_pow2 : float -> float.

Local Open Scope list_scope.

Definition logged_add (n d : pynum) : logged pynum :=
  (binop_warnings false PrimFloat.add n d, binop PrimFloat.add n d).

Definition logged_sub (n d : pynum) : logged pynum :=
  (binop_warnings false PrimFloat.sub n d, binop PrimFloat.sub n d).

Definition logged_mul (n d : pynum) : logged pynum :=
  (binop_warnings false PrimFloat.mul n d, binop PrimFloat.mul n d).

Definition logged_div (n d : pynum) : logged (result pynum) :=
  (binop_warnings true PrimFloat.div n d, float_div n d).

(** [n ** 2]: numpy's power reports an overflow where Python's raises. *)
Definition logged_sqr (n : pynum) : logged (result pynum) :=
  (match class_of n with
   | PyFloat => nil
   | NpFloat64 => ieee_warnings_1 (value n) (libm_pow2 (value n))
   end,
   float_sqr libm_pow2 n).

(** [np.sin(n)], numpy's whatever the class of [n]. *)
Definition logged_sin (n : pynum) : logged pynum :=
  (ieee_warnings_1 (value n) (libm_sin (value n)),
   numpy (libm_sin (value n))).

Notation "n +! d" := (logged_add n d) (at level 50, left associativity).
Notation "n -! d" := (logged_sub n d) (at level 50, left associativity).
Notation "n *! d" := (logged_mul n d) (at level 40, left associativity).
Notation "n /! d" := (logged_div n d) (at level 40, left associativity).

(** [Vehicle.step] once more, operation by operation in Python's order of
    evaluation, with the warnings of each; a comparison emits none. *)
Definition step_logged (self : Vehicle pynum) (throttle alpha : pynum)
  : logged (outcome pynum) :=
  log_ t := v self *! sample_time self in
  log_ t := x self +! t in
  let self := set_x self t in
  log_ t := GR self *! w_e self in
  log_ t := t *! r_e self in
  log_ t := t -! v self in
  try_log_ s := t /! v self leaving self in
  log_ F_x := c self *! s in
  let F_x :=
    if PrimFloat.leb (value (F_max self)) (value F_x) then F_max self
    else F_x in
  log_ t := m self *! g self in
  log_ sin_alpha := logged_sin alpha in
  log_ F_g := t *! sin_alpha in
  log_ R_x := c_r1 self *! v self in
  try_log_ v_2 := logged_sqr (v self) leaving self in
  log_ F_aero := c_a self *! v_2 in
  log_ t := F_aero +! R_x in
  log_ F_load := t +! F_g in
  log_ t := a self *! sample_time self in
  log_ t := v self +! t in
  let self := set_v self t in
  log_ t := F_x -! F_load in
  try_log_ a' := t /! m self leaving self in
  let self := set_a self a' in
  log_ t := a_1 self *! w_e self in
  log_ t := a_0 self +! t in
  try_log_ w_e_2 := logged_sqr (w_e self) leaving self in
  log_ t' := a_2 self *! w_e_2 in
  log_ t := t +! t' in
  log_ T_e := throttle *! t in
  log_ t := w_e_dot self *! sample_time self in
  log_ t := w_e self +! t in
  let self := set_w_e self t in
  log_ t := GR self *! r_e self in
  log_ t := t *! F_load in
  log_ t := T_e -! t in
  try_log_ w_e_dot' := t /! J_e self leaving self in
  let self := set_w_e_dot self w_e_dot' in
  (nil, Normal self).

(** Python's [n ** 2] raises [OverflowError]. *)
Definition python_overflow (n : pynum) : bool :=
  match class_of n with
  | PyFloat =>
      PrimFloat.is_finite (value n)
      && PrimFloat.is_infinity (libm_pow2 (value n))
  | NpFloat64 => false
  end.

End Warnings.

(** The two objects agree on the value of every attribute, whatever the
    run-time classes. *)
Definition same_values (self self' : Vehicle pynum) : Prop :=
  value (a_0 self') = value (a_0 self) /\
  value (a_1 self') = value (a_1 self) /\
  value (a_2 self') = value (a_2 self) /\
  value (GR self') = value (GR self) /\
  value (r_e self') = value (r_e self) /\
  value (J_e self') = value (J_e self) /\
  value (m self') = value (m self) /\
  value (g self') = value (g self) /\
  value (c_a self') = value (c_a self) /\
  value (c_r1 self') = value (c_r1 self) /\
  value (c self') = value (c self) /\
  value (F_max self') = value (F_max self) /\
  value (x self') = value (x self) /\
  value (v self') = value (v self) /\
  value (a self') = value (a self) /\
  value (w_e self') = value (w_e self) /\
  value (w_e_dot self') = value (w_e_dot self) /\
  value (sample_time self') = value (sample_time self).

(** The slip-ratio division of [step] is Python's, and raises at a zero
    velocity, when [v] and [w_e] are Python numbers, as the constructor's
    [GR] and [r_e] are; with a [numpy.float64] among the four it is
    numpy's. *)
Definition zero_division (self : Vehicle pynum) : bool :=
  match class_of (v self), class_of (w_e self) with
  | PyFloat, PyFloat => PrimFloat.is_zero (value (v self))
  | _, _ => false
  end.

(** ** The cells that drive the object *)

(** What the ramp cell asks of numpy besides [np.sin]: [np.sqrt] and
    [np.arctan]. *)
Class Numpy (T : Type) : Type := {
  np_sqrt : T -> T;
  np_arctan : T -> T
}.

(** In exact arithmetic, the square root (of the non-negative numbers the
    cell passes) and the arc tangent. *)
#[export] Instance real_numpy : Numpy R := {
  np_sqrt := R_sqrt.sqrt;
  np_arctan := Ratan.atan
}.

(** In binary64, the correctly rounded square root and the C library's
    [atan]; numpy returns a [numpy.float64] for a Python number too. *)
Definition float_numpy (libm_atan : float -> float) : Numpy pynum := {|
  np_sqrt n := numpy (PrimFloat.sqrt (value n));
  np_arctan n := numpy (libm_atan (value n))
|}.

(** What a cell can raise: an exception of the arithmetic (Python's
    [ArithmeticError] is the base class of the two), or the [IndexError]
    of an array. *)
Inductive cell_exn : Set :=
| ArithmeticError (e : exn)
| IndexError.

(** How a cell ends: with its last statement, or with an exception, its
    variables being what the statements run so far made them. *)
Inductive ended (V : Type) : Type :=
| Done (vars : V)
| Failed (e : cell_exn) (vars : V).

Arguments Done {V} vars.
Arguments Failed {V} e vars.

Definition variables_of {V : Type} (o : ended V) : V :=
  match o with
  | Done vars => vars
  | Failed _ vars => vars
  end.

Section Arrays.

Context {T : Type} {num : Number T}.

Local Open Scope list_scope.

(** [np.zeros_like(t_data)], for a [t_data] of [n] items. *)
Definition np_zeros (n : nat) : list T := repeat (np_float64 (lit 0)) n.

(** [data[i] = n]: the item is converted and stored; an index that is not
    below the length raises [IndexError]. *)
Fixpoint setitem (data : list T) (i : nat) (n : T) : option (list T) :=
  match data, i with
  | nil, _ => None
  | _ :: rest, O => Some (np_float64 n :: rest)
  | d :: rest, S i' =>
      match setitem rest i' n with
      | Some rest' => Some (d :: rest')
      | None => None
      end
  end.

End Arrays.

(** *** The constant-throttle cell *)

Module Constant.

Section Cell.

Context {T : Type} {num : Number T}.

Local Open Scope list_scope.

(** The variables the loop assigns. *)
Record variables : Type := {
  model : Vehicle T;
  v_data : list T
}.

(** [for i in indices: v_data[i] = model.v; model.step(throttle, alpha)] *)
Fixpoint loop (indices : list nat) (throttle alpha : T) (vars : variables)
  : ended variables :=
  match indices with
  | nil => Done vars
  | i :: rest =>
      match setitem (v_data vars) i (v (model vars)) with
      | None => Failed IndexError vars
      | Some data =>
          let vars := {| model := model vars; v_data := data |} in
          match step (model vars) throttle alpha with
          | Raised e self =>
              Failed (ArithmeticError e)
                     {| model := self; v_data := v_data vars |}
          | Normal self =>
              loop rest throttle alpha
                   {| model := self; v_data := v_data vars |}
          end
      end
  end.

(** The cell, for a [t_data] of [n] items: a new object, an array of
    zeros, throttle 0.2 and incline 0, and the loop over
    [range(t_data.shape[0])]. *)
Definition cell (n : nat) : ended variables :=
  loop (seq 0 n) (lit 0.2) (lit 0) {| model := init; v_data := np_zeros n |}.

End Cell.

End Constant.

(** *** The ramp cell, whole *)

Section Incline.

Context {T : Type} {num : Number T} {np : Numpy T}.

Local Open Scope py_scope.

(** The incline the ramp loop computes from [model.x]; the sums of squares
    are sums of Python integers, exact, and numpy takes their roots.  When
    no branch is taken the variable [alpha] keeps the value it had. *)
Definition ramp_incline (x alpha_1 alpha_2 alpha : T) : T :=
  if x <=? np_sqrt (lit (60 ^ 2 + 3 ^ 2)) then alpha_1
  else if (x >? np_sqrt (lit (60 ^ 2 + 3 ^ 2)))
          && (x <? np_sqrt (lit (60 ^ 2 + 3 ^ 2))
                   + np_sqrt (lit (90 ^ 2 + 9 ^ 2)))
  then alpha_2
  else if x >? lit 150 then lit 0
  else alpha.

End Incline.

Module Ramp.

Section Cell.

Context {T : Type} {num : Number T} {np : Numpy T}.

Local Open Scope list_scope.
Local Open Scope py_scope.

(** The variables the cell assigns. *)
Record variables : Type := {
  model : Vehicle T;
  throttle : T;
  alpha : T;
  throttle_data : list T;
  alpha_data : list T;
  v_data : list T;
  x_data : list T
}.

Definition set_model (vars : variables) (self : Vehicle T) : variables :=
  {| model := self; throttle := throttle vars; alpha := alpha vars;
     throttle_data := throttle_data vars; alpha_data := alpha_data vars;
     v_data := v_data vars; x_data := x_data vars |}.

Definition set_throttle (vars : variables) (n : T) : variables :=
  {| model := model vars; throttle := n; alpha := alpha vars;
     throttle_data := throttle_data vars; alpha_data := alpha_data vars;
     v_data := v_data vars; x_data := x_data vars |}.

Definition set_alpha (vars : variables) (n : T) : variables :=
  {| model := model vars; throttle := throttle vars; alpha := n;
     throttle_data := throttle_data vars; alpha_data := alpha_data vars;
     v_data := v_data vars; x_data := x_data vars |}.

Definition set_throttle_data (vars : variables) (data : list T)
  : variables :=
  {| model := model vars; throttle := throttle vars; alpha := alpha vars;
     throttle_data := data; alpha_data := alpha_data vars;
     v_data := v_data vars; x_data := x_data vars |}.

Definition set_alpha_data (vars : variables) (data : list T) : variables :=
  {| model := model vars; throttle := throttle vars; alpha := alpha vars;
     throttle_data := throttle_data vars; alpha_data := data;
     v_data := v_data vars; x_data := x_data vars |}.

Definition set_v_data (vars : variables) (data : list T) : variables :=
  {| model := model vars; throttle := throttle vars; alpha := alpha vars;
     throttle_data := throttle_data vars; alpha_data := alpha_data vars;
     v_data := data; x_data := x_data vars |}.

Definition set_x_data (vars : variables) (data : list T) : variables :=
  {| model := model vars; throttle := throttle vars; alpha := alpha vars;
     throttle_data := throttle_data vars; alpha_data := alpha_data vars;
     v_data := v_data vars; x_data := data |}.

(** The body of the loop at index [i]: the two profiles, the four stores
    and the call of [step]. *)
Definition body (alpha_1 alpha_2 : T) (i : nat) (vars : variables)
  : ended variables :=
  match ramp_throttle (t_data i) (throttle vars) with
  | Raise e => Failed (ArithmeticError e) vars
  | Ok throttle' =>
  let vars := set_throttle vars throttle' in
  let vars :=
    set_alpha vars (ramp_incline (x (model vars)) alpha_1 alpha_2 (alpha vars))
  in
  match setitem (throttle_data vars) i (throttle vars) with
  | None => Failed IndexError vars
  | Some data =>
  let vars := set_throttle_data vars data in
  match setitem (alpha_data vars) i (alpha vars) with
  | None => Failed IndexError vars
  | Some data =>
  let vars := set_alpha_data vars data in
  match setitem (v_data vars) i (v (model vars)) with
  | None => Failed IndexError vars
  | Some data =>
  let vars := set_v_data vars data in
  match setitem (x_data vars) i (x (model vars)) with
  | None => Failed IndexError vars
  | Some data =>
  let vars := set_x_data vars data in
  match step (model vars) (throttle vars) (alpha vars) with
  | Raised e self => Failed (ArithmeticError e) (set_model vars self)
  | Normal self => Done (set_model vars self)
  end end end end end end.

Fixpoint loop (alpha_1 alpha_2 : T) (indices : list nat) (vars : variables)
  : ended variables :=
  match indices with
  | nil => Done vars
  | i :: rest =>
      match body alpha_1 alpha_2 i vars with
      | Done vars' => loop alpha_1 alpha_2 rest vars'
      | Failed e vars' => Failed e vars'
      end
  end.

(** The cell, for a [t_data] of [n] items, from the variables the cells
    before it left. *)
Definition cell (n : nat) (vars : variables) : ended variables :=
  let vars := set_x_data vars (np_zeros n) in
  match div (lit 3) (lit 60) with
  | Raise e => Failed (ArithmeticError e) vars
  | Ok slope_1 =>
  let alpha_1 := np_arctan slope_1 in
  match div (lit 12 - lit 3) (lit 90) with
  | Raise e => Failed (ArithmeticError e) vars
  | Ok slope_2 =>
  let alpha_2 := np_arctan slope_2 in
  let vars := set_model vars (reset (model vars)) in
  let vars := set_throttle_data vars (np_zeros n) in
  let vars := set_alpha_data vars (np_zeros n) in
  let vars := set_v_data vars (np_zeros n) in
  loop alpha_1 alpha_2 (seq 0 n) vars
  end end.

End Cell.

End Ramp.

(** ** Stand-ins for the theorems on runs *)

(** The object [d] metres further along the road, in exact arithmetic. *)
Definition moved (self : Vehicle R) (d : R) : Vehicle R :=
  set_x self (x self + d)%R.

(** The first-order arc tangent, to run the ramp cell in binary64 with, as
    [sin_first_order] and [rounded_square] above. *)
Definition atan_first_order (f : float) : float := f.

(** * Part II: what the program does *)

(** ** In every arithmetic *)

Section Frame.

Context {T : Type} {num : Number T}.

Lemma same_parameters_refl (self : Vehicle T) : same_parameters self self.
Proof. repeat split. Qed.

Lemma same_parameters_trans (s1 s2 s3 : Vehicle T) :
  same_parameters s1 s2 -> same_parameters s2 s3 -> same_parameters s1 s3.
Proof.
  unfold same_parameters; intros H12 H23.
  decompose [and] H12; decompose [and] H23.
  repeat split; congruence.
Qed.

Lemma vehicle_ext (self self' : Vehicle T) :
  same_parameters self self' -> same_state self self' -> self' = self.
Proof.
  destruct self, self'; unfold same_parameters, same_state; simpl.
  intros Hp Hs; decompose [and] Hp; decompose [and] Hs; subst.
  reflexivity.
Qed.

Lemma step_same_parameters (self : Vehicle T) (throttle alpha : T) :
  same_parameters self (object (step self throttle alpha)).
Proof.
  unfold step.
  repeat match goal with
         | |- context [match ?e with Ok _ => _ | Raise _ => _ end] =>
             destruct e
         end; simpl; repeat split.
Qed.

Lemma reset_same_parameters (self : Vehicle T) :
  same_parameters self (reset self).
Proof. repeat split. Qed.

Lemma reachable_parameters (self : Vehicle T) :
  reachable self -> same_parameters init self.
Proof.
  induction 1 as [|self throttle alpha _ IH|self _ IH].
  - apply same_parameters_refl.
  - apply same_parameters_trans with self;
      [exact IH | apply step_same_parameters].
  - apply same_parameters_trans with self;
      [exact IH | apply reset_same_parameters].
Qed.

Lemma reset_state (self : Vehicle T) : same_state init (reset self).
Proof. repeat split. Qed.

(** One more turn of the loop is one more [step] at its end. *)
Lemma steps_succ (n : nat) (self : Vehicle T) (throttle alpha : T) :
  steps (S n) self throttle alpha =
  match steps n self throttle alpha with
  | Normal self' => step self' throttle alpha
  | Raised e self' => Raised e self'
  end.
Proof.
  revert self; induction n as [|n IH]; intros self.
  - simpl. destruct (step self throttle alpha); reflexivity.
  - simpl in IH |- *.
    destruct (step self throttle alpha) as [self'|e self'];
      [apply IH | reflexivity].
Qed.

(** C5: on every object reached from the constructor by [step] and [reset]
    calls, [reset] (a total function of the object alone) leaves the state
    variables at 0, 5, 0, 100, 0 and every parameter as it was; the object
    is again the one the constructor built. *)
Theorem reset_restores_default_state (self : Vehicle T) :
  reachable self ->
  x (reset self) = lit 0 /\ v (reset self) = lit 5 /\
  a (reset self) = lit 0 /\ w_e (reset self) = lit 100 /\
  w_e_dot (reset self) = lit 0 /\
  same_parameters self (reset self) /\
  reset self = init.
Proof.
  intros Hr. do 5 (split; [reflexivity|]).
  split; [apply reset_same_parameters|].
  apply vehicle_ext.
  - apply same_parameters_trans with self;
      [now apply reachable_parameters | apply reset_same_parameters].
  - apply reset_state.
Qed.

End Frame.

(** ** In exact real arithmetic *)

Section RealFacts.

Local Open Scope R_scope.

Implicit Types self : Vehicle R.

Lemma div_nonzero (n d : R) : d <> 0 -> div n d = Ok (n / d).
Proof.
  intros Hd; simpl.
  destruct (Req_dec_T d 0) as [E|_]; [contradiction|reflexivity].
Qed.

Lemma div_zero (n : R) : div n 0 = Raise ZeroDivisionError.
Proof.
  simpl.
  destruct (Req_dec_T 0 0) as [_|N]; [reflexivity|contradiction N; reflexivity].
Qed.

Ltac attributes :=
  cbn [set_x set_v set_a set_w_e set_w_e_dot
       a_0 a_1 a_2 GR r_e J_e m g c_a c_r1 c F_max
       x v a w_e w_e_dot sample_time].

(** With nonzero divisors [step] ends normally, in the object of the
    scheme. *)
Lemma step_equations self (throttle alpha : R) :
  v self <> 0 -> m self <> 0 -> J_e self <> 0 ->
  step self throttle alpha = Normal (lagged_euler self throttle alpha).
Proof.
  intros Hv Hm HJ. unfold step. attributes.
  rewrite (@div_nonzero _ _ Hv).
  cbn [sqr real_number].
  rewrite (@div_nonzero _ _ Hm), (@div_nonzero _ _ HJ).
  unfold lagged_euler, tire_force, load_force, engine_torque, slip_ratio.
  cbn [leb add sub mul np_sin real_number]. attributes.
  destruct (Rle_dec _ _); reflexivity.
Qed.

(** The values [__init__] gives the parameters. *)
Lemma default_values self :
  same_parameters init self ->
  a_0 self = 400 /\ a_1 self = 0.1 /\ a_2 self = -0.0002 /\
  GR self = 0.35 /\ r_e self = 0.3 /\ J_e self = 10 /\ m self = 2000 /\
  g self = 9.81 /\ c_a self = 1.36 /\ c_r1 self = 0.01 /\
  c self = 10000 /\ F_max self = 10000 /\ sample_time self = 0.01.
Proof.
  unfold same_parameters; simpl; unfold Q2R; simpl.
  intros H; decompose [and] H; repeat split; lra.
Qed.

Lemma default_divisors self :
  same_parameters init self -> m self <> 0 /\ J_e self <> 0.
Proof.
  intros H; apply default_values in H; decompose [and] H; split; lra.
Qed.

Lemma step_default self (throttle alpha : R) :
  same_parameters init self -> v self <> 0 ->
  step self throttle alpha = Normal (lagged_euler self throttle alpha).
Proof.
  intros Hp Hv. destruct (default_divisors Hp) as [Hm HJ].
  now apply step_equations.
Qed.

(** C1: from every object with the constructor's parameters and a nonzero
    velocity, for all real throttle and incline angle, [step] ends normally
    and leaves the object of the lagged forward Euler scheme: [x], [v] and
    [w_e] advanced by the old [v], [a] and [w_e_dot], then [a] and [w_e_dot]
    recomputed as [(F_x - F_load) / m] and
    [(throttle (a_0 + a_1 w_e + a_2 w_e^2) - GR r_e F_load) / J_e], all from
    the values before the step. *)
Theorem step_lagged_forward_euler self (throttle incline_angle : R) :
  same_parameters init self ->
  v self <> 0 ->
  let dt := sample_time self in
  let F_x := tire_force self in
  let F_load := load_force self incline_angle in
  exists self',
    step self throttle incline_angle = Normal self' /\
    x self' = x self + v self * dt /\
    v self' = v self + a self * dt /\
    w_e self' = w_e self + w_e_dot self * dt /\
    a self' = (F_x - F_load) / m self /\
    w_e_dot self' =
      (throttle * (a_0 self + a_1 self * w_e self + a_2 self * w_e self ^ 2)
       - GR self * r_e self * F_load) / J_e self /\
    self' = lagged_euler self throttle incline_angle.
Proof.
  intros Hp Hv dt F_x F_load.
  exists (lagged_euler self throttle incline_angle).
  split; [now apply step_default|]. repeat split.
Qed.

(** C2: with a nonzero velocity, the force in the new acceleration is
    [F_max] when the raw tire force [c s] reaches [F_max], and [c s] itself
    when it is below, however negative. *)
Theorem tire_force_clamp self (throttle incline_angle : R) :
  same_parameters init self ->
  v self <> 0 ->
  exists self',
    step self throttle incline_angle = Normal self' /\
    (F_max self <= c self * slip_ratio self ->
     a self' = (F_max self - load_force self incline_angle) / m self) /\
    (c self * slip_ratio self < F_max self ->
     a self' = (c self * slip_ratio self - load_force self incline_angle)
               / m self).
Proof.
  intros Hp Hv. exists (lagged_euler self throttle incline_angle).
  split; [now apply step_default|].
  unfold lagged_euler, tire_force; cbn [a].
  destruct (Rle_dec _ _) as [Hge|Hlt]; split; intros H;
    solve [reflexivity | lra].
Qed.

(** C9: with a nonzero velocity, the new [x], [v] and [w_e] are the same
    whatever the two inputs are; the new [a] does not depend on the
    throttle. *)
Theorem step_inputs_reach_derivatives_only
  self (throttle1 incline1 throttle2 incline2 : R) :
  same_parameters init self ->
  v self <> 0 ->
  exists self1 self2,
    step self throttle1 incline1 = Normal self1 /\
    step self throttle2 incline2 = Normal self2 /\
    x self1 = x self2 /\ v self1 = v self2 /\ w_e self1 = w_e self2 /\
    (incline1 = incline2 -> a self1 = a self2).
Proof.
  intros Hp Hv.
  exists (lagged_euler self throttle1 incline1),
         (lagged_euler self throttle2 incline2).
  do 2 (split; [now apply step_default|]).
  cbn [lagged_euler x v w_e a].
  repeat split. intros ->. reflexivity.
Qed.

(** *** Zero throttle on level ground *)

Lemma lit_0 : @lit R _ 0 = 0.
Proof. simpl; unfold Q2R; simpl; lra. Qed.

Lemma quotient_lower_bound (n d t : R) : 0 < d -> t * d <= n -> t <= n / d.
Proof.
  intros Hd H. apply Rmult_le_reg_r with d; [exact Hd|].
  unfold Rdiv. rewrite Rmult_assoc, Rinv_l; lra.
Qed.

Lemma coasting_init : coasting 0 init.
Proof.
  unfold coasting. split; [apply same_parameters_refl|].
  simpl; unfold Q2R; simpl. repeat split; try lra. lia.
Qed.

Lemma coasting_step k self :
  (k < 20)%nat -> coasting k self -> coasting (S k) (lagged_euler self 0 0).
Proof.
  intros Hk (Hp & Hv & Hw & Ha & Ha' & Hwd).
  assert (Hk' : INR k <= 19).
  { replace 19 with (INR 19) by (simpl; lra). apply le_INR. lia. }
  pose proof (default_values Hp) as Hd. decompose [and] Hd; clear Hd.
  unfold coasting. rewrite S_INR.
  split; [exact Hp|].
  cbn [lagged_euler x v a w_e w_e_dot].
  unfold tire_force, load_force, engine_torque, slip_ratio.
  rewrite sin_0.
  repeat match goal with H : _ self = _ |- _ => rewrite H end.
  assert (Hs : 0.7 <= (0.35 * w_e self * 0.3 - v self) / v self)
    by (apply quotient_lower_bound; nra).
  assert (Hl : 34 <= 1.36 * v self ^ 2 + 0.01 * v self + 2000 * 9.81 * 0 <= 50)
    by nra.
  repeat split; try nra.
  - destruct (Rle_dec _ _); nra.
  - destruct (Rle_dec _ _); nra.
  - intros _. destruct (Rle_dec _ _); nra.
Qed.

Lemma coasting_steps k :
  (k <= 20)%nat ->
  exists self, steps k init (lit 0) (lit 0) = Normal self /\ coasting k self.
Proof.
  induction k as [|k IH]; intros Hk.
  - exists init. split; [reflexivity | apply coasting_init].
  - destruct IH as (self & Hrun & Hc); [lia|].
    exists (lagged_euler self 0 0). split.
    + rewrite steps_succ, Hrun, lit_0.
      apply step_default; [apply Hc | destruct Hc as (_ & Hv & _); lra].
    + apply coasting_step; [lia | exact Hc].
Qed.

(** The velocities before and after step [n + 1] of the zero-input run. *)
Lemma zero_input_velocities n :
  (n < 20)%nat ->
  exists self self',
    steps n init (lit 0) (lit 0) = Normal self /\
    steps (S n) init (lit 0) (lit 0) = Normal self' /\
    v self' = v self + a self * 0.01 /\
    0 <= a self /\ ((1 <= n)%nat -> 0 < a self) /\ (n = 0%nat -> a self = 0).
Proof.
  intros Hn.
  destruct (@coasting_steps n) as (self & Hrun & Hc); [lia|].
  exists self, (lagged_euler self 0 0).
  split; [exact Hrun|]. split.
  - rewrite steps_succ, Hrun, lit_0.
    apply step_default; [apply Hc | destruct Hc as (_ & Hv & _); lra].
  - destruct Hc as (Hp & Hv & Hw & Ha & Ha' & Hwd).
    pose proof (default_values Hp) as Hd. decompose [and] Hd; clear Hd.
    cbn [lagged_euler v].
    repeat split; try tauto; try lra.
    + congruence.
    + intros ->. simpl in Hrun. injection Hrun as <-.
      simpl; unfold Q2R; simpl; lra.
Qed.

(** C4, as the code has it: from the constructor's state, stepping with
    zero throttle on level ground, the velocity never decreases over the
    first twenty steps; the first step leaves it at 5 and every later one
    raises it. *)
Theorem zero_input_velocity_rises n :
  (n < 20)%nat ->
  exists self self',
    steps n init (lit 0) (lit 0) = Normal self /\
    steps (S n) init (lit 0) (lit 0) = Normal self' /\
    v self <= v self' /\
    (n = 0%nat -> v self' = 5) /\
    ((1 <= n)%nat -> v self < v self').
Proof.
  intros Hn.
  destruct (zero_input_velocities Hn)
    as (self & self' & Hrun & Hrun' & Hv & Ha & Hpos & Hzero).
  exists self, self'. repeat split; try assumption.
  - lra.
  - intros ->. rewrite Hv, (Hzero eq_refl).
    simpl in Hrun. injection Hrun as <-.
    simpl; unfold Q2R; simpl; lra.
  - intros H1. specialize (Hpos H1). lra.
Qed.

(** C4, as stated, fails at the second step: the velocity is 5 after the
    first step and 5.04982975 after the second. *)
Lemma zero_input_velocity_increases :
  exists self1 self2,
    steps 1 init (lit 0) (lit 0) = Normal self1 /\
    steps 2 init (lit 0) (lit 0) = Normal self2 /\
    v self1 = 5 /\ v self2 = 5.04982975 /\ v self1 < v self2.
Proof.
  assert (Hv0 : v (@init R _) <> 0) by (simpl; unfold Q2R; simpl; lra).
  pose proof (same_parameters_refl (@init R _)) as Hp0.
  set (self1 := lagged_euler init 0 0).
  assert (H1 : v self1 = 5)
    by (unfold self1; simpl; unfold Q2R; simpl; lra).
  assert (Ha : a self1 = 4.982975).
  { unfold self1; cbn [lagged_euler a].
    unfold tire_force, load_force, slip_ratio. rewrite sin_0.
    simpl; unfold Q2R; simpl. destruct (Rle_dec _ _); lra. }
  assert (Hp1 : same_parameters init self1) by exact Hp0.
  exists self1, (lagged_euler self1 0 0).
  split; [|split].
  - cbn [steps]. rewrite lit_0, (step_default 0 0 Hp0 Hv0). reflexivity.
  - cbn [steps]. rewrite lit_0, (step_default 0 0 Hp0 Hv0).
    fold self1. rewrite (@step_default self1 0 0 Hp1); [reflexivity|lra].
  - assert (H2 : v (lagged_euler self1 0 0) = 5.04982975).
    { cbn [lagged_euler v]. rewrite H1, Ha.
      unfold self1; simpl; unfold Q2R; simpl; lra. }
    rewrite H1, H2. repeat split; lra.
Qed.

End RealFacts.

(** ** In binary64 arithmetic *)

(** *** A zero divisor and what follows it, by IEEE 754 *)

Section FloatFacts.

Local Open Scope float_scope.

Lemma float_of_spec (f : float) (sf : spec_float) :
  Prim2SF f = sf -> f = SF2Prim sf.
Proof. intros <-. symmetry. apply SF2Prim_Prim2SF. Qed.

Lemma zero_cases (z : float) :
  PrimFloat.is_zero z = true -> z = zero \/ z = neg_zero.
Proof.
  unfold PrimFloat.is_zero. rewrite FloatAxioms.eqb_spec.
  destruct (Prim2SF z) as [[|]|[|]| |[|] mz ez] eqn:E; simpl;
    try discriminate; intros _; apply float_of_spec in E; auto.
Qed.

(** Whatever is divided by a zero, the quotient is an infinity or NaN. *)
Lemma div_by_zero (n z : float) :
  PrimFloat.is_zero z = true ->
  n / z = infinity \/ n / z = neg_infinity \/ n / z = nan.
Proof.
  intros Hz. pose proof (div_spec n z) as H.
  destruct (zero_cases Hz) as [-> | ->];
    destruct (Prim2SF n) as [[|]|[|]| |[|] mn en];
    apply float_of_spec in H; rewrite H; simpl; auto.
Qed.

(** A tire force of minus infinity or NaN stays one through the
    subtraction of the load and the division by the mass. *)
Lemma from_neg_infinity (load : float) :
  (neg_infinity - load) / 2000 = neg_infinity \/
  (neg_infinity - load) / 2000 = nan.
Proof.
  pose proof (sub_spec neg_infinity load) as H.
  destruct (Prim2SF load) as [[|]|[|]| |[|] ml el];
    apply float_of_spec in H; rewrite H; vm_compute; auto.
Qed.

Lemma from_nan (load : float) : (nan - load) / 2000 = nan.
Proof.
  pose proof (sub_spec nan load) as H.
  destruct (Prim2SF load) as [[|]|[|]| |[|] ml el];
    apply float_of_spec in H; rewrite H; vm_compute; auto.
Qed.

End FloatFacts.

(** *** The update rule on Python floats and on numpy floats *)

Section Binary64Facts.

Variables libm_sin libm_pow2 : float -> float.

Let binary64 : Number pynum := float_number libm_sin libm_pow2.
#[local] Existing Instance binary64.

Implicit Types self : Vehicle pynum.

Lemma result_class_numpy_r (k : float_class) :
  result_class k NpFloat64 = NpFloat64.
Proof. destruct k; reflexivity. Qed.

Lemma float_div_numpy (n d : pynum) :
  result_class (class_of n) (class_of d) = NpFloat64 ->
  float_div n d = Ok (numpy (value n / value d)%float).
Proof. unfold float_div. intros ->. reflexivity. Qed.

Lemma float_div_python (n d : pynum) :
  result_class (class_of n) (class_of d) = PyFloat ->
  PrimFloat.is_zero (value d) = false ->
  float_div n d = Ok (python (value n / value d)%float).
Proof. unfold float_div. intros -> ->. reflexivity. Qed.

Lemma float_sqr_numpy (n : pynum) :
  class_of n = NpFloat64 ->
  float_sqr libm_pow2 n = Ok (numpy (libm_pow2 (value n))).
Proof. unfold float_sqr. intros ->. reflexivity. Qed.

Lemma float_sqr_python (n : pynum) :
  class_of n = PyFloat ->
  PrimFloat.is_infinity (libm_pow2 (value n)) = false ->
  float_sqr libm_pow2 n = Ok (python (libm_pow2 (value n))).
Proof.
  unfold float_sqr. intros -> ->. rewrite andb_false_r. reflexivity.
Qed.

Ltac attributes :=
  cbn [set_x set_v set_a set_w_e set_w_e_dot
       a_0 a_1 a_2 GR r_e J_e m g c_a c_r1 c F_max
       x v a w_e w_e_dot sample_time].

Ltac classes :=
  cbn [class_of value binop numpy python];
  repeat match goal with
         | H : class_of _ = _ |- _ => rewrite H
         end;
  repeat rewrite result_class_numpy_r;
  cbn [result_class].

(** Once [v] and [w_e] are numpy floats, no division and no power of
    [step] is Python's: the call ends normally, whatever the values, and
    [v] and [w_e] are numpy floats again. *)
Lemma step_numpy self (throttle alpha : pynum) :
  class_of (v self) = NpFloat64 ->
  class_of (w_e self) = NpFloat64 ->
  exists self',
    step self throttle alpha = Normal self' /\
    class_of (v self') = NpFloat64 /\
    class_of (w_e self') = NpFloat64 /\
    value (a self') =
      ((value (if (value (F_max self) <=?
                   value (c self) * float_slip_ratio self)%float
               then F_max self
               else numpy (value (c self) * float_slip_ratio self)%float)
        - float_load_force libm_sin libm_pow2 self alpha)
       / value (m self))%float.
Proof.
  intros Hv Hw. unfold step. attributes.
  cbn [div sqr add sub mul leb np_sin binary64 float_number].
  rewrite float_div_numpy by (classes; reflexivity).
  rewrite (float_sqr_numpy _ Hv).
  rewrite float_div_numpy by (classes; reflexivity).
  rewrite (float_sqr_numpy _ Hw).
  rewrite float_div_numpy by (classes; reflexivity).
  eexists. split; [reflexivity|]. attributes.
  split; [classes; reflexivity|]. split; [classes; reflexivity|].
  unfold float_slip_ratio, float_load_force.
  cbn [value binop numpy].
  destruct (PrimFloat.leb _ _); reflexivity.
Qed.

(** From then on no sequence of calls raises. *)
Lemma drive_numpy (inputs : list (pynum * pynum)) self :
  class_of (v self) = NpFloat64 ->
  class_of (w_e self) = NpFloat64 ->
  exists self', drive inputs self = Normal self'.
Proof.
  revert self; induction inputs as [|[throttle alpha] rest IH];
    intros self Hv Hw.
  - exists self. reflexivity.
  - destruct (step_numpy self throttle alpha Hv Hw)
      as (self' & Hstep & Hv' & Hw' & _).
    cbn [drive]. rewrite Hstep. now apply IH.
Qed.

Lemma default_floats self :
  same_parameters init self ->
  GR self = python 0.35 /\ r_e self = python 0.3 /\
  m self = python 2000 /\ c self = python 10000 /\
  F_max self = python 10000.
Proof.
  unfold same_parameters. intros H; decompose [and] H.
  repeat split;
    match goal with H : ?f self = _ |- ?f self = _ => rewrite H end;
    reflexivity.
Qed.

(** On Python floats a zero velocity stops [step] at the slip ratio. *)
Lemma step_python_zero self (throttle alpha : pynum) :
  same_parameters init self ->
  class_of (v self) = PyFloat ->
  class_of (w_e self) = PyFloat ->
  PrimFloat.is_zero (value (v self)) = true ->
  step self throttle alpha
  = Raised ZeroDivisionError
      (set_x self (x self + v self * sample_time self)%py).
Proof.
  intros Hp Hv Hw Hz.
  destruct (default_floats Hp) as (HGR & Hre & _).
  unfold step. attributes.
  cbn [div sub mul binary64 float_number]. unfold float_div.
  cbn [class_of value binop]. rewrite HGR, Hre, Hv, Hw, Hz. reflexivity.
Qed.

(** On Python floats a nonzero velocity lets [step] through, unless a
    square overflows; the two derivatives come out as numpy floats, since
    [np.sin] returns one. *)
Lemma step_python self (throttle alpha : pynum) :
  same_parameters init self ->
  class_of (v self) = PyFloat ->
  class_of (w_e self) = PyFloat ->
  PrimFloat.is_zero (value (v self)) = false ->
  PrimFloat.is_infinity (libm_pow2 (value (v self))) = false ->
  PrimFloat.is_infinity (libm_pow2 (value (w_e self))) = false ->
  exists self',
    step self throttle alpha = Normal self' /\
    v self' = (v self + a self * sample_time self)%py /\
    w_e self' = (w_e self + w_e_dot self * sample_time self)%py /\
    class_of (a self') = NpFloat64 /\
    class_of (w_e_dot self') = NpFloat64.
Proof.
  intros Hp Hv Hw Hz Hv2 Hw2.
  destruct (default_floats Hp) as (HGR & Hre & _).
  unfold step. attributes.
  cbn [div sqr add sub mul leb np_sin binary64 float_number].
  rewrite float_div_python;
    [|rewrite HGR, Hre; classes; reflexivity | exact Hz].
  rewrite (float_sqr_python _ Hv Hv2).
  rewrite float_div_numpy by (classes; reflexivity).
  rewrite (float_sqr_python _ Hw Hw2).
  rewrite float_div_numpy by (classes; reflexivity).
  eexists. split; [reflexivity|]. attributes.
  repeat split.
Qed.

Lemma default_sample_time self :
  same_parameters init self -> sample_time self = python 0.01.
Proof.
  unfold same_parameters. intros H; decompose [and] H.
  match goal with H : sample_time self = _ |- _ => rewrite H end.
  reflexivity.
Qed.

Section FromTheConstructor.

(** The C library squares 5 and 100, the constructor's [v] and [w_e], to
    finite numbers. *)
Hypothesis libm_pow2_5 : PrimFloat.is_infinity (libm_pow2 5) = false.
Hypothesis libm_pow2_100 : PrimFloat.is_infinity (libm_pow2 100) = false.

(** The first two calls on the constructor's object end normally, for any
    inputs, and leave [v] and [w_e] numpy floats: the first call makes [a]
    and [w_e_dot] numpy floats, the second adds them into [v] and [w_e]. *)
Lemma two_steps_make_numpy (throttle1 alpha1 throttle2 alpha2 : pynum) :
  exists self1 self2,
    step init throttle1 alpha1 = Normal self1 /\
    step self1 throttle2 alpha2 = Normal self2 /\
    class_of (v self2) = NpFloat64 /\
    class_of (w_e self2) = NpFloat64.
Proof.
  destruct (@step_python init throttle1 alpha1
              (same_parameters_refl init) eq_refl eq_refl eq_refl
              libm_pow2_5 libm_pow2_100)
    as (self1 & Hs1 & Hv1 & Hw1 & Ha1 & Hwd1).
  assert (Hp1 : same_parameters init self1).
  { pose proof (step_same_parameters init throttle1 alpha1) as H.
    rewrite Hs1 in H. exact H. }
  destruct (@step_python self1 throttle2 alpha2 Hp1)
    as (self2 & Hs2 & Hv2 & Hw2 & _);
    rewrite ?Hv1, ?Hw1; try reflexivity; try assumption.
  exists self1, self2. do 2 (split; [assumption|]).
  rewrite Hv2, Hw2. cbn [add mul binary64 float_number class_of binop].
  rewrite Ha1, Hwd1.
  rewrite !result_class_numpy_r. split; reflexivity.
Qed.

(** On every object reached from the constructor, [v] and [w_e] are numpy
    floats, or still the Python numbers 5 and 100 of the constructor (with
    the derivatives either the constructor's zeros or numpy floats). *)
Lemma reachable_classes self :
  reachable self ->
  (class_of (v self) = NpFloat64 /\ class_of (w_e self) = NpFloat64) \/
  (v self = python 5 /\ w_e self = python 100 /\
   ((a self = python 0 /\ w_e_dot self = python 0) \/
    (class_of (a self) = NpFloat64 /\ class_of (w_e_dot self) = NpFloat64))).
Proof.
  induction 1 as [|self throttle alpha Hr IH|self _ _].
  - right. repeat split. left. split; reflexivity.
  - pose proof (reachable_parameters Hr) as Hp.
    destruct IH as [[Hv Hw]|(Hv & Hw & Hd)].
    + destruct (step_numpy self throttle alpha Hv Hw)
        as (self' & Hstep & Hv' & Hw' & _).
      rewrite Hstep. left. split; assumption.
    + destruct (@step_python self throttle alpha Hp)
        as (self' & Hstep & Hv' & Hw' & Ha' & Hwd');
        rewrite ?Hv, ?Hw; try reflexivity; try assumption.
      rewrite Hstep. cbn [object].
      rewrite Hv', Hw', Hv, Hw, (default_sample_time Hp).
      destruct Hd as [[-> ->]|[Ha Hwd]].
      * right. split; [reflexivity|]. split; [reflexivity|].
        right. split; assumption.
      * left. cbn [add mul binary64 float_number class_of binop python].
        rewrite Ha, Hwd. split; reflexivity.
  - right. split; [reflexivity|]. split; [reflexivity|].
    left. split; reflexivity.
Qed.

(** Hence no call on such an object raises, whatever the inputs and the
    values reached, a zero velocity included. *)
Lemma reachable_step_normal self (throttle alpha : pynum) :
  reachable self -> exists self', step self throttle alpha = Normal self'.
Proof.
  intros Hr. pose proof (reachable_parameters Hr) as Hp.
  destruct (reachable_classes Hr) as [[Hv Hw]|(Hv & Hw & _)].
  - destruct (step_numpy self throttle alpha Hv Hw) as (self' & Hstep & _).
    exists self'. exact Hstep.
  - destruct (@step_python self throttle alpha Hp)
      as (self' & Hstep & _);
      rewrite ?Hv, ?Hw; try reflexivity; try assumption.
    exists self'. exact Hstep.
Qed.

Lemma reachable_drive (inputs : list (pynum * pynum)) self :
  reachable self -> exists self', drive inputs self = Normal self'.
Proof.
  revert self; induction inputs as [|[throttle alpha] rest IH];
    intros self Hr.
  - exists self. reflexivity.
  - destruct (reachable_step_normal throttle alpha Hr) as (self' & Hstep).
    cbn [drive]. rewrite Hstep. apply IH.
    pose proof (@reachable_step _ _ self throttle alpha Hr) as H.
    rewrite Hstep in H. exact H.
Qed.

End FromTheConstructor.

(** C3, as the code has it.  Take an object with the constructor's
    parameters and a zero velocity.  While [v] and [w_e] are Python floats,
    [step] raises [ZeroDivisionError] at the slip ratio, [x] alone having
    been assigned.  Once they are numpy floats, [step] ends normally and so
    does every later sequence of calls; the slip ratio is plus infinity,
    minus infinity or NaN; with plus infinity the clamp puts [F_max] in
    place of the infinite force and the acceleration is
    [(F_max - F_load) / m]; with minus infinity or NaN the acceleration is
    minus infinity or NaN.  And numpy floats they are, when the object was
    reached from the constructor by [step] and [reset] calls. *)
Theorem zero_velocity_step self (throttle alpha : pynum) :
  same_parameters init self ->
  PrimFloat.is_zero (value (v self)) = true ->
  (class_of (v self) = PyFloat -> class_of (w_e self) = PyFloat ->
   step self throttle alpha
   = Raised ZeroDivisionError
       (set_x self (x self + v self * sample_time self)%py))
  /\
  (class_of (v self) = NpFloat64 -> class_of (w_e self) = NpFloat64 ->
   let s := float_slip_ratio self in
   let F_load := float_load_force libm_sin libm_pow2 self alpha in
   (s = infinity \/ s = neg_infinity \/ s = nan) /\
   exists self',
     step self throttle alpha = Normal self' /\
     (s = infinity -> value (a self') = ((10000 - F_load) / 2000)%float) /\
     (s <> infinity ->
      value (a self') = neg_infinity \/ value (a self') = nan) /\
     (forall inputs, exists self'', drive inputs self' = Normal self''))
  /\
  (reachable self ->
   PrimFloat.is_infinity (libm_pow2 5) = false ->
   PrimFloat.is_infinity (libm_pow2 100) = false ->
   class_of (v self) = NpFloat64 /\ class_of (w_e self) = NpFloat64).
Proof.
  intros Hp Hz. split; [intros Hv Hw; now apply step_python_zero|].
  split.
  2:{ intros Hr H5 H100.
      destruct (reachable_classes H5 H100 Hr) as [H|(Hv & _)];
        [exact H|].
      rewrite Hv in Hz. discriminate Hz. }
  intros Hv Hw s F_load.
  assert (Hs : s = infinity \/ s = neg_infinity \/ s = nan)
    by (apply div_by_zero; exact Hz).
  split; [exact Hs|].
  destruct (step_numpy self throttle alpha Hv Hw)
    as (self' & Hstep & Hv' & Hw' & Ha).
  destruct (default_floats Hp) as (_ & _ & Hm & Hc & HF).
  rewrite Hm, Hc, HF in Ha. cbn [value python] in Ha.
  fold s F_load in Ha.
  exists self'. split; [exact Hstep|].
  split; [|split].
  - intros E. rewrite Ha, E. reflexivity.
  - intros N. destruct Hs as [E|[E|E]]; [contradiction| |];
      rewrite Ha, E.
    + apply from_neg_infinity.
    + right. apply from_nan.
  - intros inputs. now apply drive_numpy.
Qed.

End Binary64Facts.

(** C3, as stated, fails on the constructor's object with its velocity set
    to zero.  Held as Python numbers, the object makes [step] raise
    [ZeroDivisionError], in exact arithmetic and in binary64 alike.  With
    the zero a numpy float, [step] ends normally but nothing infinite is
    left: the slip ratio is plus infinity, the clamp puts [F_max] in its
    place, and the new acceleration is [5]. *)
Lemma zero_velocity_raises_or_is_clamped :
  step (set_v init (lit 0)) (lit 0) (lit 0)
  = Raised ZeroDivisionError
      (set_x (set_v (@init R _) (lit 0)) (lit 0 + lit 0 * lit 0.01)%py)
  /\
  (forall libm_sin libm_pow2 : float -> float,
     let F := float_number libm_sin libm_pow2 in
     step (num := F) (set_v init (lit 0)) (lit 0) (lit 0)
     = Raised ZeroDivisionError (set_v init (lit 0)))
  /\
  (forall libm_sin libm_pow2 : float -> float,
     libm_sin 0%float = 0%float ->
     libm_pow2 0%float = 0%float ->
     libm_pow2 100%float = 10000%float ->
     let F := float_number libm_sin libm_pow2 in
     step (num := F) (set_v init (numpy 0)) (lit 0) (lit 0)
     = Normal
         (set_w_e_dot
            (set_a (set_x (set_v init (numpy 0)) (numpy 0)) (numpy 5))
            (numpy 0))).
Proof.
  split; [|split].
  - unfold step. cbn -[Req_dec_T].
    destruct (Req_dec_T _ _) as [_|N]; [reflexivity|].
    exfalso; apply N. unfold Q2R; simpl; lra.
  - intros libm_sin libm_pow2 F. reflexivity.
  - intros libm_sin libm_pow2 Hsin H0 H100 F. subst F.
    vm_compute. rewrite H0, Hsin, H100. vm_compute. reflexivity.
Qed.

(** The binary64 model against the notebook: with the two functions
    above, 8000 steps at throttle 0.2 on level ground leave the velocity
    the notebook printed for [v_data[8000]], 23.99004676100847. *)
Lemma notebook_velocity :
  let F := float_number sin_first_order rounded_square in
  exists self,
    steps (num := F) (80 * 100) init (lit 0.2) (lit 0) = Normal self /\
    v self = numpy 23.99004676100847.
Proof.
  intros F. eexists. split.
  - vm_compute. reflexivity.
  - reflexivity.
Qed.

(** The same two zero-input steps in binary64, whatever the C library is
    beyond three values: the velocity is 5 after the first step and the
    double nearest 5.04982975 after the second. *)
Lemma zero_input_velocity_binary64 (libm_sin libm_pow2 : float -> float) :
  libm_sin 0%float = 0%float ->
  libm_pow2 5%float = 25%float ->
  libm_pow2 100%float = 10000%float ->
  let F := float_number libm_sin libm_pow2 in
  exists self1 self2,
    steps (num := F) 1 init (lit 0) (lit 0) = Normal self1 /\
    steps (num := F) 2 init (lit 0) (lit 0) = Normal self2 /\
    v self1 = python 5 /\ v self2 = numpy 5.04982975.
Proof.
  intros Hsin H5 H100 F.
  assert (H1 : exists self1,
             step init (lit 0) (lit 0) = Normal self1 /\
             v self1 = python 5 /\ w_e self1 = python 100 /\
             a self1 = numpy 4.982975000000001 /\
             same_parameters init self1).
  { eexists. split.
    - vm_compute. rewrite H5, Hsin, H100. vm_compute. reflexivity.
    - repeat split. }
  destruct H1 as (self1 & Hs1 & Hv1 & Hw1 & Ha1 & Hp1).
  destruct (@step_python libm_sin libm_pow2 self1 (lit 0) (lit 0) Hp1)
    as (self2 & Hs2 & Hv2 & _);
    rewrite ?Hv1, ?Hw1; cbn [value python class_of];
    rewrite ?H5, ?H100; try reflexivity.
  exists self1, self2. cbn [steps]. fold F in Hs2. rewrite Hs1, Hs2.
  repeat split; [exact Hv1|].
  rewrite Hv2, Hv1, Ha1, (default_sample_time Hp1). reflexivity.
Qed.

(** ** The ramp cell *)

(** C8: the time stamp of index 100 is one second, and the throttle stored
    at index 100 is 0.26: the real number 26/100 in exact arithmetic, and
    in binary64 the double nearest to it, the one Python prints as 0.26. *)
Theorem ramp_throttle_at_one_second :
  t_data 100 = 1%R /\
  (forall throttle : R, throttle_data 100 throttle = Ok 0.26%R) /\
  (forall (libm_sin libm_pow2 : float -> float) (throttle : pynum),
     let F := float_number libm_sin libm_pow2 in
     t_data (num := F) 100 = numpy 1 /\
     throttle_data (num := F) 100 throttle = Ok (numpy 0.26)).
Proof.
  split; [|split].
  - unfold t_data, np_arange_item. simpl. unfold Q2R; simpl. lra.
  - intros throttle.
    unfold throttle_data, ramp_throttle, t_data, np_arange_item.
    cbn -[Rle_dec Rlt_dec Req_dec_T].
    destruct (Rle_dec _ _) as [_|N].
    + destruct (Req_dec_T _ _) as [E|_].
      * exfalso. unfold Q2R in E; simpl in E; lra.
      * f_equal. unfold Q2R; simpl. lra.
    + exfalso; apply N. unfold Q2R; simpl. lra.
  - intros libm_sin libm_pow2 throttle F. split; reflexivity.
Qed.

(** ** Instances of the theorems at the constructor's object *)

Section Witnesses.

Local Open Scope R_scope.

Lemma init_velocity_nonzero : v (@init R _) <> 0.
Proof. simpl; unfold Q2R; simpl; lra. Qed.

Lemma step_lagged_forward_euler_witness :
  same_parameters init (@init R _) /\
  v (@init R _) <> 0 /\
  exists self',
    step init 0.2 0 = Normal self' /\
    self' = lagged_euler init 0.2 0.
Proof.
  split; [apply same_parameters_refl|].
  split; [exact init_velocity_nonzero|].
  destruct (@step_lagged_forward_euler init 0.2 0
              (same_parameters_refl init) init_velocity_nonzero)
    as (self' & Hstep & _ & _ & _ & _ & _ & Hself').
  exists self'. split; assumption.
Defined.

Lemma tire_force_clamp_witness :
  same_parameters init (@init R _) /\
  v (@init R _) <> 0 /\
  exists self',
    step init 0.2 0 = Normal self' /\
    (F_max init <= c init * slip_ratio init ->
     a self' = (F_max init - load_force init 0) / m init) /\
    (c init * slip_ratio init < F_max init ->
     a self' = (c init * slip_ratio init - load_force init 0) / m init).
Proof.
  split; [apply same_parameters_refl|].
  split; [exact init_velocity_nonzero|].
  apply tire_force_clamp;
    [apply same_parameters_refl | exact init_velocity_nonzero].
Defined.

Lemma step_inputs_reach_derivatives_only_witness :
  same_parameters init (@init R _) /\
  v (@init R _) <> 0 /\
  exists self1 self2,
    step init 0.2 0 = Normal self1 /\
    step init 0.5 0.1 = Normal self2 /\
    x self1 = x self2 /\ v self1 = v self2 /\ w_e self1 = w_e self2 /\
    (0 = 0.1 -> a self1 = a self2).
Proof.
  split; [apply same_parameters_refl|].
  split; [exact init_velocity_nonzero|].
  apply step_inputs_reach_derivatives_only;
    [apply same_parameters_refl | exact init_velocity_nonzero].
Defined.

Lemma zero_input_velocity_rises_witness :
  (3 < 20)%nat /\
  exists self self',
    steps 3 init (lit 0) (lit 0) = Normal self /\
    steps 4 init (lit 0) (lit 0) = Normal self' /\
    v self <= v self' /\
    (3%nat = 0%nat -> v self' = 5) /\
    ((1 <= 3)%nat -> v self < v self').
Proof.
  split; [lia|]. apply zero_input_velocity_rises. lia.
Defined.

Lemma reset_restores_default_state_witness :
  let self := object (step (@init R _) 0.2 0) in
  reachable self /\
  x (reset self) = lit 0 /\ v (reset self) = lit 5 /\
  a (reset self) = lit 0 /\ w_e (reset self) = lit 100 /\
  w_e_dot (reset self) = lit 0 /\
  same_parameters self (reset self) /\
  reset self = init.
Proof.
  intros self.
  assert (Hr : reachable self) by (apply reachable_step, reachable_init).
  split; [exact Hr|].
  apply reset_restores_default_state. exact Hr.
Defined.

Lemma zero_velocity_step_witness :
  let F := float_number sin_first_order rounded_square in
  let fresh := set_v (@init pynum F) (lit (Number := F) 0) in
  let running := set_w_e (set_v (@init pynum F) (numpy 0)) (numpy 100) in
  (same_parameters (@init pynum F) fresh /\
   PrimFloat.is_zero (value (v fresh)) = true /\
   step (num := F) fresh (lit 0.2) (lit 0)
   = Raised ZeroDivisionError
       (set_x fresh (x fresh + v fresh * sample_time fresh)%py)) /\
  (same_parameters (@init pynum F) running /\
   PrimFloat.is_zero (value (v running)) = true /\
   exists self', step (num := F) running (lit 0.2) (lit 0) = Normal self').
Proof.
  intros F fresh running.
  assert (Hp : same_parameters (@init pynum F) fresh) by (repeat split).
  assert (Hp' : same_parameters (@init pynum F) running) by (repeat split).
  split.
  - split; [exact Hp|]. split; [reflexivity|].
    apply (proj1 (@zero_velocity_step sin_first_order rounded_square
                    fresh (lit 0.2) (lit 0) Hp eq_refl));
      reflexivity.
  - split; [exact Hp'|]. split; [reflexivity|].
    destruct (proj1 (proj2 (@zero_velocity_step sin_first_order
                              rounded_square running (lit 0.2) (lit 0)
                              Hp' eq_refl))
                eq_refl eq_refl)
      as (_ & self' & Hstep & _).
    exists self'. exact Hstep.
Defined.

End Witnesses.

(** * Part III: runs of the object and the cells that make them *)

(** ** Runs, in every arithmetic *)

Section Runs.

Context {T : Type} {num : Number T}.

Local Open Scope list_scope.

Lemma drive_same_parameters (inputs : list (T * T)) (self : Vehicle T) :
  same_parameters self (object (drive inputs self)).
Proof.
  revert self; induction inputs as [|[throttle alpha] rest IH]; intros self.
  - apply same_parameters_refl.
  - cbn [drive].
    pose proof (step_same_parameters self throttle alpha) as Hs.
    destruct (step self throttle alpha) as [self'|e self'];
      cbn [object] in Hs |- *; [|exact Hs].
    apply same_parameters_trans with self'; [exact Hs | apply IH].
Qed.

(** [reset] reads nothing of the state. *)
Lemma reset_same_parameters_eq (self self' : Vehicle T) :
  same_parameters self self' -> reset self' = reset self.
Proof.
  destruct self, self'; unfold same_parameters; simpl.
  intros Hp; decompose [and] Hp; subst. reflexivity.
Qed.

(** X1: [reset] forgets the run.  On any object, whatever its parameters
    and however a sequence of [step] calls on it ended, [reset] gives the
    object that [reset] gave before the run; and a second [reset] changes
    nothing. *)
Theorem reset_forgets_the_run (inputs : list (T * T)) (self : Vehicle T) :
  reset (object (drive inputs self)) = reset self /\
  reset (reset self) = reset self.
Proof.
  split; apply reset_same_parameters_eq;
    [apply drive_same_parameters | apply reset_same_parameters].
Qed.

(** The loop with constant inputs is the run on the repeated input. *)
Lemma steps_drive (n : nat) (self : Vehicle T) (throttle alpha : T) :
  steps n self throttle alpha = drive (repeat (throttle, alpha) n) self.
Proof.
  revert self; induction n as [|n IH]; intros self.
  - reflexivity.
  - cbn [steps repeat drive].
    destruct (step self throttle alpha) as [self'|e self'];
      [apply IH | reflexivity].
Qed.

(** However [step] ends, the position has been advanced. *)
Lemma step_position (self : Vehicle T) (throttle alpha : T) :
  x (object (step self throttle alpha))
  = (x self + v self * sample_time self)%py.
Proof.
  unfold step.
  repeat match goal with
         | |- context [match ?e with Ok _ => _ | Raise _ => _ end] =>
             destruct e
         end; reflexivity.
Qed.

(** X2: [step] is not atomic.  When it raises, the object it leaves is one
    of four: [x] alone advanced (the slip ratio or the square of [v]
    raised); [x] and [v] advanced (the division by [m] raised); these and a
    new [a] (the square of [w_e] raised); these and [w_e] advanced (the
    division by [J_e] raised).  [w_e_dot] is never assigned by a call that
    raises. *)
Theorem step_raises_between_assignments
  (self : Vehicle T) (throttle alpha : T) (e : exn) (self' : Vehicle T) :
  step self throttle alpha = Raised e self' ->
  let self1 := set_x self (x self + v self * sample_time self)%py in
  let self2 := set_v self1 (v self + a self * sample_time self)%py in
  self' = self1 \/
  self' = self2 \/
  (exists a', self' = set_a self2 a') \/
  (exists a',
     self' = set_w_e (set_a self2 a')
                     (w_e self + w_e_dot self * sample_time self)%py).
Proof.
  intros H self1 self2. unfold step in H.
  repeat match type of H with
         | context [match ?e with Ok _ => _ | Raise _ => _ end] =>
             destruct e
         end; try discriminate H; injection H as _ <-.
  - right; right; right. eexists. reflexivity.
  - right; right; left. eexists. reflexivity.
  - right; left. reflexivity.
  - left. reflexivity.
  - left. reflexivity.
Qed.

Lemma drive_reachable (inputs : list (T * T)) (self : Vehicle T) :
  reachable self -> reachable (object (drive inputs self)).
Proof.
  revert self; induction inputs as [|[throttle alpha] rest IH];
    intros self Hr.
  - exact Hr.
  - cbn [drive].
    pose proof (@reachable_step _ _ self throttle alpha Hr) as H.
    destruct (step self throttle alpha) as [self'|e self'];
      cbn [object] in H |- *; [apply IH|]; exact H.
Qed.

Lemma reset_reachable (self : Vehicle T) :
  reachable self -> reset self = init.
Proof.
  intros Hr. apply vehicle_ext.
  - apply same_parameters_trans with self;
      [now apply reachable_parameters | apply reset_same_parameters].
  - apply reset_state.
Qed.

End Runs.

(** ** Runs in exact real arithmetic *)

Section RealRuns.

Local Open Scope list_scope.
Local Open Scope R_scope.

Implicit Types self : Vehicle R.

Ltac attributes :=
  cbn [set_x set_v set_a set_w_e set_w_e_dot
       a_0 a_1 a_2 GR r_e J_e m g c_a c_r1 c F_max
       x v a w_e w_e_dot sample_time].

Lemma step_moved self (d throttle alpha : R) :
  step (moved self d) throttle alpha =
  match step self throttle alpha with
  | Normal self' => Normal (moved self' d)
  | Raised e self' => Raised e (moved self' d)
  end.
Proof.
  unfold step, moved. attributes.
  cbn [sqr real_number].
  repeat match goal with
         | |- context [match ?e with Ok _ => _ | Raise _ => _ end] =>
             destruct e
         end; f_equal; apply vehicle_ext; repeat split;
    attributes; cbn [add real_number]; lra.
Qed.

(** X4: the model does not know where the road begins.  For any
    parameters, a run from the object moved by [d] ends as the run from the
    object does, normally or with the same exception, and leaves the same
    object moved by [d]. *)
Theorem run_is_translation_invariant
  (inputs : list (R * R)) self (d : R) :
  drive inputs (moved self d) =
  match drive inputs self with
  | Normal self' => Normal (moved self' d)
  | Raised e self' => Raised e (moved self' d)
  end.
Proof.
  revert self; induction inputs as [|[throttle alpha] rest IH]; intros self.
  - reflexivity.
  - cbn [drive]. rewrite step_moved.
    destruct (step self throttle alpha) as [self'|e self'];
      [apply IH | reflexivity].
Qed.

(** X5: the inputs reach the position at the third call.  After two calls
    (neither at a zero velocity) the position is
    [x + v dt + (v + a dt) dt] whatever the four inputs were; the velocity
    depends on the first incline only, and the engine speed on the first
    throttle and incline only. *)
Theorem inputs_reach_position_at_third_step
  self (throttle1 alpha1 throttle2 alpha2 : R)
  (throttle1' alpha1' throttle2' alpha2' : R) :
  same_parameters init self ->
  v self <> 0 ->
  v self + a self * sample_time self <> 0 ->
  exists self2 self2',
    drive ((throttle1, alpha1) :: (throttle2, alpha2) :: nil) self
    = Normal self2 /\
    drive ((throttle1', alpha1') :: (throttle2', alpha2') :: nil) self
    = Normal self2' /\
    x self2 = x self2' /\
    x self2 = x self + v self * sample_time self
              + (v self + a self * sample_time self) * sample_time self /\
    (alpha1 = alpha1' -> v self2 = v self2') /\
    (throttle1 = throttle1' -> alpha1 = alpha1' -> w_e self2 = w_e self2').
Proof.
  intros Hp Hv Hv'.
  assert (H : forall t1 al1 t2 al2,
             drive ((t1, al1) :: (t2, al2) :: nil) self
             = Normal (lagged_euler (lagged_euler self t1 al1) t2 al2)).
  { intros. cbn [drive]. rewrite (step_default t1 al1 Hp Hv).
    rewrite step_default; [reflexivity|exact Hp|exact Hv']. }
  eexists; eexists.
  split; [apply H|]. split; [apply H|].
  cbn [lagged_euler x v w_e sample_time].
  repeat split; intros; subst; reflexivity.
Qed.

(** X6: the steady states are the force balances.  With a nonzero
    velocity, a call leaves [v], [a], [w_e] and [w_e_dot] as they were
    exactly when both derivatives are zero, the tire force equals the load
    and the engine torque equals the load torque [GR r_e F_load]. *)
Theorem steady_state_is_force_balance self (throttle alpha : R) :
  same_parameters init self ->
  v self <> 0 ->
  exists self',
    step self throttle alpha = Normal self' /\
    ((v self' = v self /\ a self' = a self /\
      w_e self' = w_e self /\ w_e_dot self' = w_e_dot self)
     <->
     (a self = 0 /\ w_e_dot self = 0 /\
      tire_force self = load_force self alpha /\
      engine_torque self throttle
      = GR self * r_e self * load_force self alpha)).
Proof.
  intros Hp Hv. exists (lagged_euler self throttle alpha).
  split; [now apply step_default|].
  pose proof (default_values Hp) as Hd. decompose [and] Hd; clear Hd.
  cbn [lagged_euler v a w_e w_e_dot].
  repeat match goal with
         | H : ?f self = _ |- _ =>
             match f with
             | @m _ => rewrite H
             | @J_e _ => rewrite H
             | @sample_time _ => rewrite H
             end
         end.
  generalize (tire_force self) (load_force self alpha)
             (engine_torque self throttle).
  intros F L E.
  set (K := GR self * r_e self * L).
  split; intros; repeat split; lra.
Qed.

(** Rolling backwards with the engine turning forwards, the slip ratio is
    at most -1. *)
Lemma slip_ratio_reverse self :
  same_parameters init self ->
  v self < 0 -> 0 <= w_e self -> slip_ratio self <= -1.
Proof.
  intros Hp Hv Hw.
  pose proof (default_values Hp) as Hd. decompose [and] Hd; clear Hd.
  unfold slip_ratio.
  repeat match goal with H : _ self = _ |- _ => rewrite H end.
  set (q := (0.35 * w_e self * 0.3 - v self) / v self).
  assert (Hq : q * v self = 0.35 * w_e self * 0.3 - v self)
    by (unfold q; field; lra).
  nra.
Qed.

(** X7: a negative velocity runs away.  With [v < 0], the engine not
    turning backwards and the road level or uphill, the tire force is the
    unclamped [c s <= -c], and the new acceleration is below -4.99: the
    model pushes a vehicle that rolls backwards further backwards. *)
Theorem reverse_motion_runs_away self (throttle alpha : R) :
  same_parameters init self ->
  v self < 0 ->
  0 <= w_e self ->
  0 <= sin alpha ->
  exists self',
    step self throttle alpha = Normal self' /\
    slip_ratio self <= -1 /\
    a self' = (c self * slip_ratio self - load_force self alpha) / m self /\
    a self' < -4.99.
Proof.
  intros Hp Hv Hw Hs. exists (lagged_euler self throttle alpha).
  split; [apply step_default; [exact Hp | lra]|].
  pose proof (slip_ratio_reverse Hp Hv Hw) as Hslip.
  pose proof (default_values Hp) as Hd. decompose [and] Hd; clear Hd.
  cbn [lagged_euler a]. unfold tire_force, load_force.
  repeat match goal with H : _ self = _ |- _ => rewrite H end.
  split; [exact Hslip|].
  destruct (Rle_dec _ _) as [Hge|_]; [lra|].
  split; [reflexivity|]. nra.
Qed.

(** X8: the clamp bounds the acceleration.  On a level or uphill road the
    new acceleration is at most [F_max / m = 5] less the drag and the
    rolling resistance over the mass, whatever the throttle and the engine
    speed: it is below 5 at a positive velocity and negative from
    85.75 m/s on, the top speed of the model. *)
Theorem acceleration_bound_and_top_speed self (throttle alpha : R) :
  same_parameters init self ->
  v self <> 0 ->
  0 <= sin alpha ->
  exists self',
    step self throttle alpha = Normal self' /\
    a self' <= 5 - (1.36 * v self ^ 2 + 0.01 * v self) / 2000 /\
    (0 < v self -> a self' < 5) /\
    (85.75 <= v self -> a self' < 0).
Proof.
  intros Hp Hv Hs. exists (lagged_euler self throttle alpha).
  split; [now apply step_default|].
  pose proof (default_values Hp) as Hd. decompose [and] Hd; clear Hd.
  cbn [lagged_euler a]. unfold tire_force, load_force.
  repeat match goal with H : _ self = _ |- _ => rewrite H end.
  destruct (Rle_dec _ _) as [Hge|Hlt]; repeat split; intros; nra.
Qed.

(** X19: the torque map peaks at 250 rad/s.  For a throttle that is not
    negative the engine torque [throttle (a_0 + a_1 w_e + a_2 w_e^2)] is at
    most 412.5 times the throttle, so the new engine acceleration is at
    most [(412.5 throttle - GR r_e F_load) / J_e], with [GR r_e = 0.105] and
    [J_e = 10]; the bound is met at [w_e = 250]. *)
Theorem engine_torque_peak self (throttle alpha : R) :
  same_parameters init self ->
  v self <> 0 ->
  0 <= throttle ->
  exists self',
    step self throttle alpha = Normal self' /\
    engine_torque self throttle <= 412.5 * throttle /\
    w_e_dot self' <= (412.5 * throttle - 0.105 * load_force self alpha) / 10 /\
    (w_e self = 250 ->
     w_e_dot self'
     = (412.5 * throttle - 0.105 * load_force self alpha) / 10).
Proof.
  intros Hp Hv Ht. exists (lagged_euler self throttle alpha).
  split; [now apply step_default|].
  pose proof (default_values Hp) as Hd. decompose [and] Hd; clear Hd.
  cbn [lagged_euler w_e_dot]. unfold engine_torque.
  repeat match goal with
         | H : ?f self = _ |- _ =>
             match f with
             | @a_0 _ => rewrite H
             | @a_1 _ => rewrite H
             | @a_2 _ => rewrite H
             | @GR _ => rewrite H
             | @r_e _ => rewrite H
             | @J_e _ => rewrite H
             end
         end.
  generalize (load_force self alpha). intros L.
  assert (Hpeak : 400 + 0.1 * w_e self + -0.0002 * w_e self ^ 2 <= 412.5)
    by (pose proof (pow2_ge_0 (w_e self - 250)); nra).
  assert (Htorque :
            throttle * (400 + 0.1 * w_e self + -0.0002 * w_e self ^ 2)
            <= 412.5 * throttle) by nra.
  repeat split; try lra.
  intros ->. lra.
Qed.

End RealRuns.

(** ** Runs in binary64 arithmetic *)

(** *** NaN, by IEEE 754 *)

Section FloatNaN.

Local Open Scope float_scope.

Lemma nan_add_l (f : float) : nan + f = nan.
Proof.
  pose proof (add_spec nan f) as H.
  destruct (Prim2SF f) as [[|]|[|]| |[|] mf ef];
    apply float_of_spec in H; rewrite H; reflexivity.
Qed.

Lemma nan_add_r (f : float) : f + nan = nan.
Proof.
  pose proof (add_spec f nan) as H.
  destruct (Prim2SF f) as [[|]|[|]| |[|] mf ef];
    apply float_of_spec in H; rewrite H; reflexivity.
Qed.

Lemma nan_sub_l (f : float) : nan - f = nan.
Proof.
  pose proof (sub_spec nan f) as H.
  destruct (Prim2SF f) as [[|]|[|]| |[|] mf ef];
    apply float_of_spec in H; rewrite H; reflexivity.
Qed.

Lemma nan_sub_r (f : float) : f - nan = nan.
Proof.
  pose proof (sub_spec f nan) as H.
  destruct (Prim2SF f) as [[|]|[|]| |[|] mf ef];
    apply float_of_spec in H; rewrite H; reflexivity.
Qed.

Lemma nan_mul_l (f : float) : nan * f = nan.
Proof.
  pose proof (mul_spec nan f) as H.
  destruct (Prim2SF f) as [[|]|[|]| |[|] mf ef];
    apply float_of_spec in H; rewrite H; reflexivity.
Qed.

Lemma nan_mul_r (f : float) : f * nan = nan.
Proof.
  pose proof (mul_spec f nan) as H.
  destruct (Prim2SF f) as [[|]|[|]| |[|] mf ef];
    apply float_of_spec in H; rewrite H; reflexivity.
Qed.

Lemma nan_div_l (f : float) : nan / f = nan.
Proof.
  pose proof (div_spec nan f) as H.
  destruct (Prim2SF f) as [[|]|[|]| |[|] mf ef];
    apply float_of_spec in H; rewrite H; reflexivity.
Qed.

End FloatNaN.

(** *** Calls and runs *)

Section Binary64Runs.

Variables libm_sin libm_pow2 : float -> float.

#[local] Hint Extern 0 (Number pynum) =>
  exact (float_number libm_sin libm_pow2) : typeclass_instances.

Implicit Types self : Vehicle pynum.

Local Open Scope list_scope.

Ltac attributes :=
  cbn [set_x set_v set_a set_w_e set_w_e_dot
       a_0 a_1 a_2 GR r_e J_e m g c_a c_r1 c F_max
       x v a w_e w_e_dot sample_time].

Ltac classes :=
  cbn [class_of value binop numpy python];
  repeat match goal with
         | H : class_of _ = _ |- _ => rewrite H
         end;
  repeat rewrite result_class_numpy_r;
  cbn [result_class].

(** X9: no run from the constructor raises.  On an object reached from
    [Vehicle()] by [step] and [reset] calls, every sequence of [step]
    calls ends normally, whatever the inputs and the values reached (a
    zero velocity, infinities and NaN included), and leaves such an object
    again; the C library squaring 5 and 100 to finite numbers is all that
    is asked of it. *)
Theorem run_from_the_constructor_never_raises
  (inputs : list (pynum * pynum)) self :
  PrimFloat.is_infinity (libm_pow2 5) = false ->
  PrimFloat.is_infinity (libm_pow2 100) = false ->
  reachable self ->
  exists self', drive inputs self = Normal self' /\ reachable self'.
Proof.
  intros H5 H100 Hr.
  destruct (reachable_drive H5 H100 inputs Hr) as (self' & Hrun).
  exists self'. split; [exact Hrun|].
  pose proof (drive_reachable inputs Hr) as H.
  rewrite Hrun in H. exact H.
Qed.

(** The class of the throttle is lost in the subtraction of the load
    torque, which is a numpy float. *)
Lemma torque_balance_class (throttle torque load : pynum) :
  class_of load = NpFloat64 ->
  binop PrimFloat.sub (binop PrimFloat.mul throttle torque) load
  = binop PrimFloat.sub
      (binop PrimFloat.mul (numpy (value throttle)) torque) load.
Proof.
  intros H. unfold binop. cbn [class_of value numpy]. rewrite H.
  rewrite !result_class_numpy_r. reflexivity.
Qed.

Lemma step_input_values self (throttle alpha : pynum) :
  step self throttle alpha
  = step self (numpy (value throttle)) (numpy (value alpha)).
Proof.
  unfold step. attributes.
  cbn [div sqr add sub mul leb np_sin float_number].
  cbn [value numpy].
  destruct (float_div _ (v self)); [|reflexivity].
  destruct (float_sqr libm_pow2 (v self)); [|reflexivity].
  destruct (float_div _ (m self)); [|reflexivity].
  destruct (float_sqr libm_pow2 _); [|reflexivity].
  rewrite torque_balance_class; [reflexivity|].
  classes. reflexivity.
Qed.


Lemma drive_input_values (inputs : list (pynum * pynum)) self :
  drive (map (fun input => (np_float64 (fst input), np_float64 (snd input)))
             inputs) self
  = drive inputs self.
Proof.
  revert self; induction inputs as [|[throttle alpha] rest IH]; intros self.
  - reflexivity.
  - cbn [map drive fst snd].
    rewrite (step_input_values self throttle alpha).
    cbn [np_float64 float_number].
    destruct (step _ _ _) as [self'|e self']; [apply IH | reflexivity].
Qed.

Lemma step_nan self (throttle alpha : pynum) :
  class_of (v self) = NpFloat64 ->
  class_of (w_e self) = NpFloat64 ->
  value (v self) = nan ->
  exists self',
    step self throttle alpha = Normal self' /\
    class_of (v self') = NpFloat64 /\
    class_of (w_e self') = NpFloat64 /\
    value (v self') = nan /\
    value (x self') = nan /\
    value (a self') = nan /\
    value (w_e_dot self') = nan.
Proof.
  intros Hv Hw Hnan. unfold step. attributes.
  cbn [div sqr add sub mul leb np_sin float_number].
  rewrite float_div_numpy by (classes; reflexivity).
  rewrite (float_sqr_numpy _ _ Hv).
  rewrite float_div_numpy by (classes; reflexivity).
  rewrite (float_sqr_numpy _ _ Hw).
  rewrite float_div_numpy by (classes; reflexivity).
  eexists. split; [reflexivity|]. attributes.
  split; [classes; reflexivity|]. split; [classes; reflexivity|].
  cbn [value binop numpy]. rewrite Hnan.
  repeat split;
    repeat (progress rewrite ?nan_mul_l, ?nan_mul_r, ?nan_add_l, ?nan_add_r,
              ?nan_sub_l, ?nan_sub_r, ?nan_div_l);
    reflexivity.
Qed.

(** X11: a NaN velocity never heals.  Once [v] and [w_e] are numpy floats
    and the velocity is NaN, for any parameters, every later run ends
    normally with the velocity NaN, and after one call or more the
    position, the acceleration and the engine acceleration are NaN too. *)
Theorem nan_velocity_is_absorbing (inputs : list (pynum * pynum)) self :
  class_of (v self) = NpFloat64 ->
  class_of (w_e self) = NpFloat64 ->
  value (v self) = nan ->
  exists self',
    drive inputs self = Normal self' /\
    value (v self') = nan /\
    (inputs <> nil ->
     value (x self') = nan /\ value (a self') = nan /\
     value (w_e_dot self') = nan).
Proof.
  revert self; induction inputs as [|[throttle alpha] rest IH];
    intros self Hv Hw Hnan.
  - exists self. repeat split; try assumption; congruence.
  - destruct (step_nan self throttle alpha Hv Hw Hnan)
      as (self1 & Hstep & Hv1 & Hw1 & Hnan1 & Hx1 & Ha1 & Hwd1).
    cbn [drive]. rewrite Hstep.
    destruct (IH self1 Hv1 Hw1 Hnan1) as (self' & Hrun & Hnan' & Hrest).
    exists self'. split; [exact Hrun|]. split; [exact Hnan'|].
    intros _. destruct rest as [|input rest].
    + cbn [drive] in Hrun. injection Hrun as <-. auto.
    + apply Hrest. discriminate.
Qed.

End Binary64Runs.

(** ** The cells, in every arithmetic *)

Section Logs.

Context {T : Type} {num : Number T} {np : Numpy T}.

Local Open Scope list_scope.

(** A store below the length succeeds: the item at the index is the
    stored number, the others are what they were. *)
Lemma setitem_middle (before after : list T) (d n : T) :
  setitem (before ++ d :: after) (length before) n
  = Some (before ++ np_float64 n :: after).
Proof.
  induction before as [|b before IH]; [reflexivity|].
  cbn [app length setitem]. rewrite IH. reflexivity.
Qed.

Lemma setitem_at (before after : list T) (d n : T) (i : nat) :
  length before = i ->
  setitem (before ++ d :: after) i n
  = Some (before ++ np_float64 n :: after).
Proof. intros <-. apply setitem_middle. Qed.

(** The loop of the constant-throttle cell, its array filled below the
    first index and long enough for the others. *)
Lemma constant_loop_log
  (r : nat) (before : list T) (self : Vehicle T) (throttle alpha : T) :
  match Constant.loop (seq (length before) r) throttle alpha
          {| Constant.model := self;
             Constant.v_data := before ++ np_zeros r |} with
  | Done vars =>
      steps r self throttle alpha = Normal (Constant.model vars) /\
      exists recorded,
        Constant.v_data vars = before ++ recorded /\
        length recorded = r /\
        forall i self',
          steps i self throttle alpha = Normal self' ->
          (i < r)%nat ->
          nth_error recorded i = Some (np_float64 (v self'))
  | Failed e vars =>
      exists e',
        e = ArithmeticError e' /\
        steps r self throttle alpha = Raised e' (Constant.model vars) /\
        length (Constant.v_data vars) = (length before + r)%nat
  end.
Proof.
  revert before self; induction r as [|r IH]; intros before self.
  - cbn [seq Constant.loop steps np_zeros repeat Constant.v_data].
    split; [reflexivity|].
    exists nil. rewrite !app_nil_r.
    split; [reflexivity|]. split; [reflexivity|]. intros i self' _ Hi. lia.
  - cbn [seq Constant.loop steps np_zeros repeat
         Constant.model Constant.v_data].
    rewrite setitem_middle.
    cbn [Constant.model Constant.v_data].
    destruct (step self throttle alpha) as [self1|e self1] eqn:Hs.
    + specialize (IH (before ++ np_float64 (v self) :: nil) self1).
      rewrite length_app in IH. cbn [length] in IH.
      rewrite Nat.add_1_r, <- app_assoc in IH. cbn [app] in IH.
      fold (np_zeros r).
      destruct (Constant.loop _ _ _ _) as [vars|e vars].
      * destruct IH as (Hrun & recorded & Hdata & Hlen & Hrec).
        split; [exact Hrun|].
        exists (np_float64 (v self) :: recorded).
        rewrite Hdata, <- app_assoc. cbn [app length].
        split; [reflexivity|]. split; [now f_equal|].
        intros [|i] self' Hi Hlt.
        -- cbn [steps] in Hi. injection Hi as <-. reflexivity.
        -- cbn [nth_error]. apply Hrec; [|lia].
           cbn [steps] in Hi. rewrite Hs in Hi. exact Hi.
      * destruct IH as (e' & He & Hrun & Hlen).
        exists e'. repeat split; try assumption. lia.
    + exists e. repeat split.
      cbn [Constant.v_data]. rewrite length_app. cbn [length].
      unfold np_zeros. rewrite repeat_length. reflexivity.
Qed.

(** X12: the array of the constant-throttle cell is the log of its run.
    The cell never stores out of bounds.  When it ends normally, its object
    is the one [n] calls of [step] at throttle 0.2 and incline 0 make of
    [Vehicle()], and item [i] of [v_data] is the velocity after [i] calls,
    before call [i + 1]; when it ends with an exception, the exception is
    the one the run raises, on the object the run leaves. *)
Theorem constant_cell_log (n : nat) :
  match Constant.cell n with
  | Done vars =>
      steps n init (lit 0.2) (lit 0) = Normal (Constant.model vars) /\
      length (Constant.v_data vars) = n /\
      forall i self,
        steps i init (lit 0.2) (lit 0) = Normal self ->
        (i < n)%nat ->
        nth_error (Constant.v_data vars) i = Some (np_float64 (v self))
  | Failed e vars =>
      exists e',
        e = ArithmeticError e' /\
        steps n init (lit 0.2) (lit 0) = Raised e' (Constant.model vars) /\
        length (Constant.v_data vars) = n
  end.
Proof.
  unfold Constant.cell.
  pose proof (constant_loop_log n nil init (lit 0.2) (lit 0)) as H.
  cbn [length app] in H.
  destruct (Constant.loop _ _ _ _) as [vars|e vars].
  - destruct H as (Hrun & recorded & Hdata & Hlen & Hrec).
    rewrite Hdata. repeat split; assumption.
  - exact H.
Qed.

Ltac variables :=
  cbn [Ramp.set_model Ramp.set_throttle Ramp.set_alpha
       Ramp.set_throttle_data Ramp.set_alpha_data Ramp.set_v_data
       Ramp.set_x_data Ramp.model Ramp.throttle Ramp.alpha
       Ramp.throttle_data Ramp.alpha_data Ramp.v_data Ramp.x_data].

Ltac variables_in H :=
  cbn [Ramp.set_model Ramp.set_throttle Ramp.set_alpha
       Ramp.set_throttle_data Ramp.set_alpha_data Ramp.set_v_data
       Ramp.set_x_data Ramp.model Ramp.throttle Ramp.alpha
       Ramp.throttle_data Ramp.alpha_data Ramp.v_data Ramp.x_data] in H.

(** One turn of the ramp loop, its arrays filled below the index [k] and
    long enough for it. *)
Lemma ramp_body_log
  (alpha_1 alpha_2 : T) (k r : nat) (vars : Ramp.variables)
  (throttles alphas vs xs : list T) :
  length throttles = k -> length alphas = k ->
  length vs = k -> length xs = k ->
  Ramp.throttle_data vars = throttles ++ np_zeros (S r) ->
  Ramp.alpha_data vars = alphas ++ np_zeros (S r) ->
  Ramp.v_data vars = vs ++ np_zeros (S r) ->
  Ramp.x_data vars = xs ++ np_zeros (S r) ->
  let alpha' :=
    ramp_incline (x (Ramp.model vars)) alpha_1 alpha_2 (Ramp.alpha vars) in
  match Ramp.body alpha_1 alpha_2 k vars with
  | Done vars' =>
      exists throttle',
        ramp_throttle (t_data k) (Ramp.throttle vars) = Ok throttle' /\
        step (Ramp.model vars) throttle' alpha'
        = Normal (Ramp.model vars') /\
        Ramp.throttle vars' = throttle' /\
        Ramp.alpha vars' = alpha' /\
        Ramp.throttle_data vars'
        = (throttles ++ np_float64 throttle' :: nil) ++ np_zeros r /\
        Ramp.alpha_data vars'
        = (alphas ++ np_float64 alpha' :: nil) ++ np_zeros r /\
        Ramp.v_data vars'
        = (vs ++ np_float64 (v (Ramp.model vars)) :: nil) ++ np_zeros r /\
        Ramp.x_data vars'
        = (xs ++ np_float64 (x (Ramp.model vars)) :: nil) ++ np_zeros r
  | Failed e vars' =>
      exists e',
        e = ArithmeticError e' /\
        (ramp_throttle (t_data k) (Ramp.throttle vars) = Raise e' \/
         exists throttle',
           ramp_throttle (t_data k) (Ramp.throttle vars) = Ok throttle' /\
           step (Ramp.model vars) throttle' alpha'
           = Raised e' (Ramp.model vars'))
  end.
Proof.
  intros Ht Ha Hv Hx Etd Ead Evd Exd alpha'. unfold Ramp.body.
  destruct (ramp_throttle _ _) as [throttle'|e].
  2:{ exists e. split; [reflexivity|]. left. reflexivity. }
  variables. rewrite Etd, Ead, Evd, Exd.
  cbn [np_zeros repeat].
  rewrite !setitem_at by assumption.
  variables. fold alpha'.
  destruct (step _ _ _) as [self'|e self'] eqn:Hs.
  - exists throttle'. variables. rewrite <- !app_assoc.
    repeat split. exact Hs.
  - exists e. split; [reflexivity|]. right.
    exists throttle'. split; [reflexivity | exact Hs].
Qed.

Lemma ramp_loop_log (alpha_1 alpha_2 : T) (r : nat) :
  forall (vars : Ramp.variables) (throttles alphas vs xs : list T),
  length alphas = length throttles ->
  length vs = length throttles ->
  length xs = length throttles ->
  Ramp.throttle_data vars = throttles ++ np_zeros r ->
  Ramp.alpha_data vars = alphas ++ np_zeros r ->
  Ramp.v_data vars = vs ++ np_zeros r ->
  Ramp.x_data vars = xs ++ np_zeros r ->
  match Ramp.loop alpha_1 alpha_2 (seq (length throttles) r) vars with
  | Done vars' =>
      exists inputs : list (T * T),
        length inputs = r /\
        drive inputs (Ramp.model vars) = Normal (Ramp.model vars') /\
        Ramp.throttle_data vars'
        = throttles ++ map (fun input => np_float64 (fst input)) inputs /\
        Ramp.alpha_data vars'
        = alphas ++ map (fun input => np_float64 (snd input)) inputs /\
        exists recorded_v recorded_x,
          Ramp.v_data vars' = vs ++ recorded_v /\
          Ramp.x_data vars' = xs ++ recorded_x /\
          length recorded_v = r /\ length recorded_x = r /\
          forall i self,
            (i < r)%nat ->
            drive (firstn i inputs) (Ramp.model vars) = Normal self ->
            nth_error recorded_v i = Some (np_float64 (v self)) /\
            nth_error recorded_x i = Some (np_float64 (x self)) /\
            exists throttle' throttle alpha,
              ramp_throttle (t_data (length throttles + i)) throttle
              = Ok throttle' /\
              nth_error inputs i
              = Some (throttle',
                      ramp_incline (x self) alpha_1 alpha_2 alpha)
  | Failed e vars' =>
      exists e' inputs self,
        e = ArithmeticError e' /\
        drive inputs (Ramp.model vars) = Normal self /\
        ((exists k throttle, ramp_throttle (t_data k) throttle = Raise e') \/
         (exists throttle' alpha',
            step self throttle' alpha' = Raised e' (Ramp.model vars')))
  end.
Proof.
  induction r as [|r IH]; intros vars throttles alphas vs xs Ha Hv Hx
    Etd Ead Evd Exd.
  - cbn [seq Ramp.loop]. cbn [np_zeros repeat] in Etd, Ead, Evd, Exd.
    rewrite app_nil_r in Etd, Ead, Evd, Exd.
    exists nil. cbn [map length drive]. rewrite !app_nil_r.
    do 4 (split; [reflexivity || assumption|]).
    exists nil, nil. rewrite !app_nil_r.
    do 4 (split; [reflexivity || assumption|]).
    intros i self Hi. lia.
  - cbn [seq Ramp.loop].
    pose proof (@ramp_body_log alpha_1 alpha_2 (length throttles) r vars
                  throttles alphas vs xs eq_refl Ha Hv Hx Etd Ead Evd Exd)
      as Hbody.
    cbv zeta in Hbody.
    destruct (Ramp.body _ _ _ _) as [vars1|e vars1].
    2:{ destruct Hbody as (e' & -> & [Hraise|(throttle' & _ & Hraise)]);
          exists e', nil, (Ramp.model vars);
          (split; [reflexivity|]); (split; [reflexivity|]).
        - left. eexists; eexists. exact Hraise.
        - right. eexists; eexists. exact Hraise. }
    destruct Hbody
      as (throttle' & Hthrottle & Hstep & _ & _ & Etd1 & Ead1 & Evd1 & Exd1).
    set (alpha' := ramp_incline (x (Ramp.model vars)) alpha_1 alpha_2
                     (Ramp.alpha vars)) in *.
    specialize (IH vars1
                  (throttles ++ np_float64 throttle' :: nil)
                  (alphas ++ np_float64 alpha' :: nil)
                  (vs ++ np_float64 (v (Ramp.model vars)) :: nil)
                  (xs ++ np_float64 (x (Ramp.model vars)) :: nil)).
    rewrite !length_app in IH. cbn [length] in IH.
    rewrite !Nat.add_1_r in IH.
    specialize (IH (f_equal S Ha) (f_equal S Hv) (f_equal S Hx)
                  Etd1 Ead1 Evd1 Exd1).
    destruct (Ramp.loop _ _ _ _) as [vars'|e vars'].
    2:{ destruct IH as (e' & inputs & self & -> & Hrun & Hwhy).
        exists e', ((throttle', alpha') :: inputs), self.
        split; [reflexivity|]. cbn [drive]. rewrite Hstep.
        split; [exact Hrun | exact Hwhy]. }
    destruct IH as (inputs & Hlen & Hrun & Etd' & Ead' & recorded_v
                    & recorded_x & Evd' & Exd' & Hlv & Hlx & Hrec).
    exists ((throttle', alpha') :: inputs).
    cbn [length map drive fst snd]. rewrite Hstep.
    split; [now f_equal|]. split; [exact Hrun|].
    rewrite Etd', Ead', <- !app_assoc. cbn [app].
    do 2 (split; [reflexivity|]).
    exists (np_float64 (v (Ramp.model vars)) :: recorded_v),
           (np_float64 (x (Ramp.model vars)) :: recorded_x).
    rewrite Evd', Exd', <- !app_assoc. cbn [app length].
    do 2 (split; [reflexivity|]).
    split; [now f_equal|]. split; [now f_equal|].
    intros [|i] self Hi Hself.
    + cbn [firstn drive] in Hself. injection Hself as <-.
      cbn [nth_error]. do 2 (split; [reflexivity|]).
      exists throttle', (Ramp.throttle vars), (Ramp.alpha vars).
      rewrite Nat.add_0_r. split; [exact Hthrottle | reflexivity].
    + cbn [firstn drive] in Hself. rewrite Hstep in Hself.
      cbn [nth_error]. rewrite Nat.add_succ_r.
      apply Hrec; [lia | exact Hself].
Qed.

(** X13: the arrays of the ramp cell are the log of a closed loop.  The
    cell never stores out of bounds.  When it ends normally there is a
    sequence of [n] inputs such that: the cell's object is what the run on
    these inputs makes of the reset object; [throttle_data] and
    [alpha_data] hold the inputs; items [i] of [v_data] and [x_data] are
    the velocity and the position after [i] calls; and input [i] is the
    throttle profile at [t_data[i]] with the incline profile at that
    position.  When it ends with an exception, one of the two divisions
    before the loop, the throttle expression or a call of [step] raised
    it. *)
Theorem ramp_cell_log (n : nat) (vars : Ramp.variables) :
  let start := reset (Ramp.model vars) in
  match Ramp.cell n vars with
  | Done vars' =>
      exists (slope_1 slope_2 : T) (inputs : list (T * T)),
        div (lit 3) (lit 60) = Ok slope_1 /\
        div (sub (lit 12) (lit 3)) (lit 90) = Ok slope_2 /\
        length inputs = n /\
        drive inputs start = Normal (Ramp.model vars') /\
        Ramp.throttle_data vars'
        = map (fun input => np_float64 (fst input)) inputs /\
        Ramp.alpha_data vars'
        = map (fun input => np_float64 (snd input)) inputs /\
        length (Ramp.v_data vars') = n /\
        length (Ramp.x_data vars') = n /\
        forall i self,
          (i < n)%nat ->
          drive (firstn i inputs) start = Normal self ->
          nth_error (Ramp.v_data vars') i = Some (np_float64 (v self)) /\
          nth_error (Ramp.x_data vars') i = Some (np_float64 (x self)) /\
          exists throttle' throttle alpha,
            ramp_throttle (t_data i) throttle = Ok throttle' /\
            nth_error inputs i
            = Some (throttle',
                    ramp_incline (x self) (np_arctan slope_1)
                                 (np_arctan slope_2) alpha)
  | Failed e vars' =>
      exists e',
        e = ArithmeticError e' /\
        (div (lit 3) (lit 60) = Raise e' \/
         div (sub (lit 12) (lit 3)) (lit 90) = Raise e' \/
         exists inputs self,
           drive inputs start = Normal self /\
           ((exists k throttle,
               ramp_throttle (t_data k) throttle = Raise e') \/
            (exists throttle' alpha',
               step self throttle' alpha' = Raised e' (Ramp.model vars'))))
  end.
Proof.
  intros start. unfold Ramp.cell.
  destruct (div (lit 3) (lit 60)) as [slope_1|e].
  2:{ exists e. split; [reflexivity|]. left. reflexivity. }
  destruct (div _ (lit 90)) as [slope_2|e].
  2:{ exists e. split; [reflexivity|]. right. left. reflexivity. }
  match goal with
  | |- match Ramp.loop ?a1 ?a2 _ ?vars0 with _ => _ end =>
      pose proof (@ramp_loop_log a1 a2 n vars0 nil nil nil nil
                    eq_refl eq_refl eq_refl eq_refl eq_refl eq_refl eq_refl)
        as H
  end.
  cbn [length app] in H. variables. variables_in H. fold start in H.
  destruct (Ramp.loop _ _ _ _) as [vars'|e vars'].
  - destruct H as (inputs & Hlen & Hrun & Etd & Ead & recorded_v
                   & recorded_x & Evd & Exd & Hlv & Hlx & Hrec).
    exists slope_1, slope_2, inputs.
    rewrite Evd, Exd.
    repeat (split; [reflexivity || assumption|]).
    exact Hrec.
  - destruct H as (e' & inputs & self & -> & Hrun & Hwhy).
    exists e'. split; [reflexivity|]. right. right.
    exists inputs, self. split; assumption.
Qed.

Lemma combine_map (A B C : Type) (f : A -> B) (h : A -> C) (l : list A) :
  combine (map f l) (map h l) = map (fun a => (f a, h a)) l.
Proof.
  induction l as [|d l IH]; [reflexivity|].
  cbn [map combine]. now f_equal.
Qed.

End Logs.

(** ** The cells in exact real arithmetic *)

Section RealCells.

Local Open Scope list_scope.
Local Open Scope R_scope.

Lemma sum_np_zeros (n : nat) : fold_right Rplus 0 (np_zeros n) = 0.
Proof.
  unfold np_zeros. induction n as [|n IH]; [reflexivity|].
  cbn [repeat fold_right]. rewrite IH.
  cbn [np_float64 real_number]. rewrite lit_0. lra.
Qed.

Lemma constant_loop_position
  (r : nat) (before : list R) (self : Vehicle R) (throttle alpha : R) :
  let vars :=
    variables_of
      (Constant.loop (seq (length before) r) throttle alpha
         {| Constant.model := self;
            Constant.v_data := before ++ np_zeros r |}) in
  exists recorded,
    Constant.v_data vars = before ++ recorded /\
    length recorded = r /\
    x (Constant.model vars)
    = x self + sample_time self * fold_right Rplus 0 recorded.
Proof.
  revert before self; induction r as [|r IH]; intros before self.
  - exists nil.
    cbn [seq Constant.loop variables_of np_zeros repeat
         Constant.model Constant.v_data length fold_right].
    repeat split. lra.
  - cbn [seq Constant.loop np_zeros repeat Constant.model Constant.v_data].
    rewrite setitem_middle.
    cbn [Constant.model Constant.v_data].
    pose proof (step_position self throttle alpha) as Hx.
    pose proof (step_same_parameters self throttle alpha) as Hp.
    destruct (step self throttle alpha) as [self1|e self1];
      cbn [object] in Hx, Hp.
    + specialize (IH (before ++ np_float64 (v self) :: nil) self1).
      rewrite length_app in IH. cbn [length] in IH.
      rewrite Nat.add_1_r, <- app_assoc in IH. cbn [app] in IH.
      fold (np_zeros r).
      destruct IH as (recorded & Hdata & Hlen & Hsum).
      exists (np_float64 (v self) :: recorded).
      rewrite Hdata, <- app_assoc. cbn [app length fold_right].
      split; [reflexivity|]. split; [now f_equal|].
      rewrite Hsum, Hx.
      replace (sample_time self1) with (sample_time self)
        by (symmetry; apply Hp).
      cbn [np_float64 add mul real_number]. lra.
    + exists (np_float64 (v self) :: np_zeros r).
      cbn [variables_of Constant.model Constant.v_data length fold_right].
      split; [reflexivity|].
      split; [unfold np_zeros; now rewrite repeat_length|].
      rewrite Hx, sum_np_zeros.
      cbn [np_float64 add mul real_number]. lra.
Qed.

(** X14: the position is the sum of the recorded velocities.  For any
    object, inputs and number of turns, and however the loop of the
    constant-throttle cell ends, the array keeps its length and the
    position of the object it leaves is the position at the start plus the
    sample time times the sum of [v_data]: every turn that began has
    stored its velocity and advanced [x] by it, and the items of the turns
    that never came are zeros. *)
Theorem position_is_the_sum_of_recorded_velocities
  (n : nat) (self : Vehicle R) (throttle alpha : R) :
  let vars :=
    variables_of
      (Constant.loop (seq 0 n) throttle alpha
         {| Constant.model := self; Constant.v_data := np_zeros n |}) in
  length (Constant.v_data vars) = n /\
  x (Constant.model vars)
  = x self + sample_time self * fold_right Rplus 0 (Constant.v_data vars).
Proof.
  destruct (constant_loop_position n nil self throttle alpha)
    as (recorded & Hdata & Hlen & Hsum).
  cbn [app length] in Hdata, Hsum. intros vars. subst vars.
  rewrite Hdata. split; assumption.
Qed.

Lemma lit_integer (z : Z) : @lit R _ (inject_Z z) = IZR z.
Proof.
  cbn [lit real_number]. unfold Q2R, inject_Z. cbn [Qnum Qden]. field.
Qed.

(** The time stamps are the multiples of a hundredth of a second. *)
Lemma t_data_real (i : nat) : @t_data R _ i = INR i / 100.
Proof.
  unfold t_data, np_arange_item.
  destruct i as [|[|i]].
  - cbn [np_float64 lit real_number INR]. unfold Q2R; cbn [Qnum Qden]. lra.
  - cbn [np_float64 lit add real_number INR].
    unfold Q2R; cbn [Qnum Qden]. lra.
  - rewrite lit_integer, <- INR_IZR_INZ.
    generalize (INR (S (S i))). intros t.
    cbn [np_float64 lit add sub mul real_number].
    unfold Q2R; cbn [Qnum Qden]. lra.
Qed.

Lemma ramp_throttle_real (t throttle : R) :
  ramp_throttle t throttle =
  Ok (if Rle_dec t 5 then 0.2 + 0.06 * t
      else if Rle_dec t 15 then 0.5
      else 0.5 - 0.1 * (t - 15)).
Proof.
  unfold ramp_throttle.
  cbn [div leb ltb add sub mul lit real_number].
  unfold Q2R; cbn [Qnum Qden].
  destruct (Req_dec_T _ _) as [E|_]; [lra|].
  repeat destruct (Rle_dec _ _); repeat destruct (Rlt_dec _ _);
    cbn [andb]; try lra; f_equal; lra.
Qed.

(** X15: the throttle profile of the ramp cell.  At each of the 2000
    indices the throttle expression raises nothing and takes one of its
    three branches, never keeping the value of the turn before: the
    throttle stored rises from 0.2 by 0.0006 a sample up to index 500,
    stays at 0.5 up to index 1500 and falls by 0.001 a sample after it; it
    lies in (0, 0.5] and ends at 0.001, not at zero. *)
Theorem ramp_throttle_profile (i : nat) (throttle : R) :
  (i < 2000)%nat ->
  exists throttle',
    throttle_data i throttle = Ok throttle' /\
    0 < throttle' <= 0.5 /\
    ((i <= 500)%nat -> throttle' = 0.2 + 0.0006 * INR i) /\
    ((500 < i <= 1500)%nat -> throttle' = 0.5) /\
    ((1500 < i)%nat -> throttle' = 0.5 - 0.001 * (INR i - 1500)).
Proof.
  intros Hi. unfold throttle_data.
  rewrite ramp_throttle_real, t_data_real. eexists. split; [reflexivity|].
  cbn [np_float64 real_number].
  rewrite INR_IZR_INZ.
  assert (H0 : 0 <= IZR (Z.of_nat i)) by (apply IZR_le; lia).
  assert (H2000 : IZR (Z.of_nat i) <= 1999) by (apply IZR_le; lia).
  assert (H500 : (i <= 500)%nat -> IZR (Z.of_nat i) <= 500)
    by (intros H; apply IZR_le; lia).
  assert (H500' : (500 < i)%nat -> 501 <= IZR (Z.of_nat i))
    by (intros H; apply IZR_le; lia).
  assert (H1500 : (i <= 1500)%nat -> IZR (Z.of_nat i) <= 1500)
    by (intros H; apply IZR_le; lia).
  assert (H1500' : (1500 < i)%nat -> 1501 <= IZR (Z.of_nat i))
    by (intros H; apply IZR_le; lia).
  generalize dependent (IZR (Z.of_nat i)).
  intros t H0 H2000 H500 H500' H1500 H1500'.
  destruct (Nat.le_gt_cases i 500) as [L5|G5];
    [|destruct (Nat.le_gt_cases i 1500) as [L15|G15]].
  - specialize (H500 L5).
    destruct (Rle_dec _ _) as [_|N]; [|lra].
    repeat split; intros; try lra; lia.
  - specialize (H500' G5). specialize (H1500 L15).
    destruct (Rle_dec (t / 100) 5) as [N|_]; [lra|].
    destruct (Rle_dec _ _) as [_|N]; [|lra].
    repeat split; intros; try lra; lia.
  - specialize (H1500' G15).
    destruct (Rle_dec (t / 100) 5) as [N|_]; [lra|].
    destruct (Rle_dec _ _) as [N|_]; [lra|].
    repeat split; intros; try lra; lia.
Qed.

Lemma sqrt_between (lo hi n : R) :
  0 <= lo -> 0 <= hi -> lo * lo < n < hi * hi ->
  lo < R_sqrt.sqrt n < hi.
Proof.
  intros Hlo Hhi [Hl Hh].
  split.
  - rewrite <- (sqrt_square lo Hlo). apply sqrt_lt_1_alt. nra.
  - rewrite <- (sqrt_square hi Hhi). apply sqrt_lt_1_alt. nra.
Qed.

(** X16: the incline profile of the ramp cell.  Every position takes one
    of the three branches, so the incline of the turn before is never
    kept: it is [alpha_1] up to the foot [sqrt (60^2 + 3^2)] of the second
    ramp, [alpha_2] strictly between the foot and the top
    [sqrt (60^2 + 3^2) + sqrt (90^2 + 9^2)], and 0 from the top on.  The
    top lies beyond 150, so the test [model.x > 150] of the last branch
    never decides. *)
Theorem ramp_incline_profile (x alpha_1 alpha_2 alpha : R) :
  let foot := R_sqrt.sqrt (60 ^ 2 + 3 ^ 2) in
  let top := foot + R_sqrt.sqrt (90 ^ 2 + 9 ^ 2) in
  60 < foot /\ 150 < top /\
  (x <= foot -> ramp_incline x alpha_1 alpha_2 alpha = alpha_1) /\
  (foot < x < top -> ramp_incline x alpha_1 alpha_2 alpha = alpha_2) /\
  (top <= x -> ramp_incline x alpha_1 alpha_2 alpha = 0).
Proof.
  intros foot top.
  assert (Hfoot : 60 < foot < 60.1)
    by (apply sqrt_between; lra).
  assert (Hrise : 90 < R_sqrt.sqrt (90 ^ 2 + 9 ^ 2) < 90.5)
    by (apply sqrt_between; lra).
  unfold ramp_incline.
  cbn [leb ltb add lit np_sqrt real_number real_numpy].
  change (60 ^ 2 + 3 ^ 2)%Q with (3609 # 1)%Q.
  change (90 ^ 2 + 9 ^ 2)%Q with (8181 # 1)%Q.
  replace (Q2R (3609 # 1)) with (60 ^ 2 + 3 ^ 2)
    by (unfold Q2R; cbn [Qnum Qden]; lra).
  replace (Q2R (8181 # 1)) with (90 ^ 2 + 9 ^ 2)
    by (unfold Q2R; cbn [Qnum Qden]; lra).
  replace (Q2R 150) with 150 by (unfold Q2R; cbn [Qnum Qden]; lra).
  replace (Q2R 0) with 0 by (unfold Q2R; cbn [Qnum Qden]; lra).
  fold foot. fold top.
  split; [lra|]. split; [unfold top; lra|].
  assert (Htop : 150 < top) by (unfold top; lra).
  repeat split; intros H;
    repeat destruct (Rle_dec _ _); repeat destruct (Rlt_dec _ _);
    cbn [andb]; solve [reflexivity | lra].
Qed.

End RealCells.

(** ** The cells in binary64 arithmetic *)

Section Binary64Cells.

Variables libm_sin libm_pow2 libm_atan : float -> float.

#[local] Hint Extern 0 (Number pynum) =>
  exact (float_number libm_sin libm_pow2) : typeclass_instances.
#[local] Hint Extern 0 (Numpy pynum) =>
  exact (float_numpy libm_atan) : typeclass_instances.

Implicit Types self : Vehicle pynum.

Local Open Scope list_scope.

Ltac variables_in H :=
  cbn [Ramp.set_model Ramp.set_throttle Ramp.set_alpha
       Ramp.set_throttle_data Ramp.set_alpha_data Ramp.set_v_data
       Ramp.set_x_data Ramp.model Ramp.throttle Ramp.alpha
       Ramp.throttle_data Ramp.alpha_data Ramp.v_data Ramp.x_data] in H.

(** The throttle expression divides by the Python number 5. *)
Lemma ramp_throttle_float (t throttle : pynum) :
  exists throttle', ramp_throttle t throttle = Ok throttle'.
Proof.
  unfold ramp_throttle.
  destruct (leb t (lit 5)); [eexists; reflexivity|].
  destruct (_ && _); [eexists; reflexivity|].
  destruct (ltb (lit 15) t); eexists; reflexivity.
Qed.

(** The C library squares 5 and 100, the constructor's [v] and [w_e], to
    finite numbers. *)
Hypothesis libm_pow2_5 : PrimFloat.is_infinity (libm_pow2 5) = false.
Hypothesis libm_pow2_100 : PrimFloat.is_infinity (libm_pow2 100) = false.

Lemma constructed_run (inputs : list (pynum * pynum)) :
  exists self, drive inputs init = Normal self /\ reachable self.
Proof.
  destruct (@reachable_drive libm_sin libm_pow2 libm_pow2_5 libm_pow2_100
              inputs init reachable_init) as (self & Hrun).
  exists self. split; [exact Hrun|].
  pose proof (drive_reachable inputs reachable_init) as H.
  rewrite Hrun in H. exact H.
Qed.

(** X17: the constant-throttle cell runs to its end.  For an array of any
    length the cell raises nothing; it leaves the object of the run of [n]
    calls, and item [i] of [v_data] is the velocity after [i] calls, as a
    numpy float. *)
Theorem constant_cell_runs (n : nat) :
  exists vars : @Constant.variables pynum,
    Constant.cell n = Done vars /\
    steps n init (lit 0.2) (lit 0) = Normal (Constant.model vars) /\
    length (Constant.v_data vars) = n /\
    forall i, (i < n)%nat ->
      exists self,
        steps i init (lit 0.2) (lit 0) = Normal self /\
        nth_error (Constant.v_data vars) i = Some (numpy (value (v self))).
Proof.
  unfold Constant.cell.
  pose proof (@constant_loop_log pynum _ n nil init (lit 0.2) (lit 0)) as H.
  cbn [length app] in H.
  destruct (Constant.loop _ _ _ _) as [vars|e vars].
  - destruct H as (Hrun & recorded & Hdata & Hlen & Hrec).
    exists vars. rewrite Hdata. repeat split; try assumption.
    intros i Hi.
    destruct (constructed_run (repeat (lit 0.2, lit 0) i))
      as (self & Hself & _).
    rewrite <- steps_drive in Hself.
    exists self. split; [exact Hself|].
    apply (Hrec i self Hself Hi).
  - destruct H as (e' & _ & Hrun & _).
    destruct (constructed_run (repeat (lit 0.2, lit 0) n))
      as (self & Hself & _).
    rewrite <- steps_drive, Hrun in Hself. discriminate Hself.
Qed.

(** X18: the ramp cell runs to its end and can be replayed from its
    arrays.  From any variables whose object was reached from the
    constructor, and for arrays of any length, the cell raises nothing.
    The four arrays are full; the run of a new object on the stored
    throttles and inclines ends in the object the cell leaves; items [i]
    of [v_data] and [x_data] are the velocity and the position of the
    replay after [i] calls; the throttle stored at [i] is the one the
    profile gives for [t_data[i]], and the incline stored at [i] is the
    profile at that position, between the arc tangents of 3/60 and
    9/90. *)
Theorem ramp_cell_runs_and_replays
  (n : nat) (vars : @Ramp.variables pynum) :
  reachable (Ramp.model vars) ->
  exists vars',
    Ramp.cell n vars = Done vars' /\
    let log := combine (Ramp.throttle_data vars') (Ramp.alpha_data vars') in
    length (Ramp.throttle_data vars') = n /\
    length (Ramp.alpha_data vars') = n /\
    length (Ramp.v_data vars') = n /\
    length (Ramp.x_data vars') = n /\
    drive log init = Normal (Ramp.model vars') /\
    forall i, (i < n)%nat ->
      exists self throttle' throttle alpha,
        drive (firstn i log) init = Normal self /\
        nth_error (Ramp.v_data vars') i = Some (numpy (value (v self))) /\
        nth_error (Ramp.x_data vars') i = Some (numpy (value (x self))) /\
        throttle_data i throttle = Ok throttle' /\
        nth_error (Ramp.throttle_data vars') i = Some throttle' /\
        nth_error (Ramp.alpha_data vars') i
        = Some (np_float64
                  (ramp_incline (x self) (numpy (libm_atan 0.05))
                                (numpy (libm_atan 0.1)) alpha)).
Proof.
  intros Hr. unfold Ramp.cell.
  change (div (lit 3) (lit 60)) with (Ok (python 0.05)).
  change (div (sub (lit 12) (lit 3)) (lit 90)) with (Ok (python 0.1)).
  cbv iota.
  match goal with
  | |- exists _, Ramp.loop ?a1 ?a2 _ ?vars0 = _ /\ _ =>
      pose proof (@ramp_loop_log _ _ _ a1 a2 n vars0 nil nil nil nil
                    eq_refl eq_refl eq_refl eq_refl eq_refl eq_refl eq_refl)
        as H;
      cbn [length app] in H;
      destruct (Ramp.loop a1 a2 (seq 0 n) vars0) as [vars'|e vars']
  end; variables_in H; rewrite (reset_reachable Hr) in H.
  - destruct H as (inputs & Hlen & Hrun & Etd & Ead & recorded_v
                   & recorded_x & Evd & Exd & Hlv & Hlx & Hrec).
    cbn [Nat.add] in Hrec.
    exists vars'. split; [reflexivity|].
    set (log := combine (Ramp.throttle_data vars') (Ramp.alpha_data vars')).
    assert (Hlog : log = map (fun input => (np_float64 (fst input),
                                            np_float64 (snd input))) inputs).
    { unfold log. rewrite Etd, Ead. apply combine_map. }
    rewrite Etd, Ead, Evd, Exd, !length_map.
    do 4 (split; [assumption|]).
    rewrite Hlog, drive_input_values. split; [exact Hrun|].
    intros i Hi. rewrite firstn_map, drive_input_values.
    destruct (constructed_run (firstn i inputs)) as (self & Hself & _).
    destruct (Hrec i self Hi Hself)
      as (Hv & Hx & throttle' & throttle & alpha & Hthrottle & Hinput).
    exists self, (np_float64 throttle'), throttle, alpha.
    split; [exact Hself|]. split; [exact Hv|]. split; [exact Hx|].
    split; [unfold throttle_data; rewrite Hthrottle; reflexivity|].
    rewrite !nth_error_map, Hinput. split; reflexivity.
  - destruct H as (e' & inputs & self & _ & Hrun & Hwhy).
    exfalso.
    destruct Hwhy as [(k & throttle & H)|(throttle' & alpha' & H)].
    + destruct (ramp_throttle_float (t_data k) throttle) as (t' & Ht).
      rewrite Ht in H. discriminate H.
    + destruct (constructed_run inputs) as (self0 & Hrun0 & Hr0).
      rewrite Hrun in Hrun0. injection Hrun0 as <-.
      destruct (@reachable_step_normal libm_sin libm_pow2
                  libm_pow2_5 libm_pow2_100 self throttle' alpha' Hr0)
        as (self' & Hs).
      rewrite Hs in H. discriminate H.
Qed.

End Binary64Cells.

(** ** Instances of the theorems of this part *)

Section RunWitnesses.

Local Open Scope list_scope.
Local Open Scope R_scope.

Lemma step_raises_between_assignments_witness :
  let F := float_number sin_first_order rounded_square in
  let self := set_v (@init pynum F) (lit (Number := F) 0) in
  let self1 := set_x self (x self + v self * sample_time self)%py in
  let self2 := set_v self1 (v self + a self * sample_time self)%py in
  step (num := F) self (lit 0.2) (lit 0) = Raised ZeroDivisionError self /\
  (self = self1 \/
   self = self2 \/
   (exists a', self = set_a self2 a') \/
   (exists a',
      self = set_w_e (set_a self2 a')
                     (w_e self + w_e_dot self * sample_time self)%py)).
Proof.
  intros F self self1 self2.
  assert (H : step (num := F) self (lit 0.2) (lit 0)
              = Raised ZeroDivisionError self) by reflexivity.
  split; [exact H|].
  exact (step_raises_between_assignments self (lit 0.2) (lit 0) H).
Defined.

Lemma init_next_velocity_nonzero :
  v (@init R _) + a (@init R _) * sample_time (@init R _) <> 0.
Proof. simpl; unfold Q2R; simpl; lra. Qed.

Lemma inputs_reach_position_at_third_step_witness :
  same_parameters init (@init R _) /\
  v (@init R _) <> 0 /\
  v (@init R _) + a (@init R _) * sample_time (@init R _) <> 0 /\
  exists self2 self2',
    drive ((0.2, 0) :: (0.3, 0.1) :: nil) init = Normal self2 /\
    drive ((0.5, 0.2) :: (0.1, 0) :: nil) init = Normal self2' /\
    x self2 = x self2' /\
    x self2 = x init + v init * sample_time init
              + (v init + a init * sample_time init) * sample_time init /\
    (0 = 0.2 -> v self2 = v self2') /\
    (0.2 = 0.5 -> 0 = 0.2 -> w_e self2 = w_e self2').
Proof.
  split; [apply same_parameters_refl|].
  split; [exact init_velocity_nonzero|].
  split; [exact init_next_velocity_nonzero|].
  exact (@inputs_reach_position_at_third_step init 0.2 0 0.3 0.1 0.5 0.2 0.1 0
           (same_parameters_refl init) init_velocity_nonzero
           init_next_velocity_nonzero).
Defined.

Lemma steady_state_is_force_balance_witness :
  same_parameters init (@init R _) /\
  v (@init R _) <> 0 /\
  exists self',
    step init 0.2 0 = Normal self' /\
    ((v self' = v init /\ a self' = a init /\
      w_e self' = w_e init /\ w_e_dot self' = w_e_dot init)
     <->
     (a init = 0 /\ w_e_dot init = 0 /\
      tire_force init = load_force init 0 /\
      engine_torque init 0.2 = GR init * r_e init * load_force init 0)).
Proof.
  split; [apply same_parameters_refl|].
  split; [exact init_velocity_nonzero|].
  exact (@steady_state_is_force_balance init 0.2 0
           (same_parameters_refl init) init_velocity_nonzero).
Defined.

Lemma rolling_back_hypotheses :
  let self := set_v (@init R _) (-1) in
  same_parameters init self /\ v self < 0 /\ 0 <= w_e self /\ 0 <= sin 0.
Proof.
  intros self. split; [repeat split|].
  split; [cbn [self set_v v]; lra|].
  split; [|rewrite sin_0; lra].
  cbn [self set_v w_e init lit real_number]. unfold Q2R; cbn [Qnum Qden]. lra.
Qed.

Lemma reverse_motion_runs_away_witness :
  let self := set_v (@init R _) (-1) in
  (same_parameters init self /\ v self < 0 /\ 0 <= w_e self /\ 0 <= sin 0) /\
  exists self',
    step self 0.2 0 = Normal self' /\
    slip_ratio self <= -1 /\
    a self' = (c self * slip_ratio self - load_force self 0) / m self /\
    a self' < -4.99.
Proof.
  intros self. split; [exact rolling_back_hypotheses|].
  destruct rolling_back_hypotheses as (Hp & Hv & Hw & Hs).
  exact (@reverse_motion_runs_away self 0.2 0 Hp Hv Hw Hs).
Defined.

Lemma level_road : 0 <= sin 0.
Proof. rewrite sin_0. lra. Qed.

Lemma acceleration_bound_and_top_speed_witness :
  same_parameters init (@init R _) /\
  v (@init R _) <> 0 /\
  0 <= sin 0 /\
  exists self',
    step init 0.2 0 = Normal self' /\
    a self' <= 5 - (1.36 * v init ^ 2 + 0.01 * v init) / 2000 /\
    (0 < v init -> a self' < 5) /\
    (85.75 <= v init -> a self' < 0).
Proof.
  split; [apply same_parameters_refl|].
  split; [exact init_velocity_nonzero|].
  split; [exact level_road|].
  exact (@acceleration_bound_and_top_speed init 0.2 0
           (same_parameters_refl init) init_velocity_nonzero level_road).
Defined.

Lemma engine_torque_peak_witness :
  same_parameters init (@init R _) /\
  v (@init R _) <> 0 /\
  0 <= 0.2 /\
  exists self',
    step init 0.2 0 = Normal self' /\
    engine_torque init 0.2 <= 412.5 * 0.2 /\
    w_e_dot self' <= (412.5 * 0.2 - 0.105 * load_force init 0) / 10 /\
    (w_e init = 250 ->
     w_e_dot self' = (412.5 * 0.2 - 0.105 * load_force init 0) / 10).
Proof.
  assert (Ht : 0 <= 0.2) by lra.
  split; [apply same_parameters_refl|].
  split; [exact init_velocity_nonzero|].
  split; [exact Ht|].
  exact (@engine_torque_peak init 0.2 0
           (same_parameters_refl init) init_velocity_nonzero Ht).
Defined.

Lemma ramp_throttle_profile_witness :
  (1999 < 2000)%nat /\
  exists throttle',
    throttle_data 1999 0.2 = Ok throttle' /\
    0 < throttle' <= 0.5 /\
    ((1999 <= 500)%nat -> throttle' = 0.2 + 0.0006 * INR 1999) /\
    ((500 < 1999 <= 1500)%nat -> throttle' = 0.5) /\
    ((1500 < 1999)%nat -> throttle' = 0.5 - 0.001 * (INR 1999 - 1500)).
Proof.
  assert (H : (1999 < 2000)%nat) by lia.
  split; [exact H|].
  exact (ramp_throttle_profile 0.2 H).
Defined.

Lemma run_from_the_constructor_never_raises_witness :
  let F := float_number sin_first_order rounded_square in
  PrimFloat.is_infinity (rounded_square 5) = false /\
  PrimFloat.is_infinity (rounded_square 100) = false /\
  reachable (@init pynum F) /\
  exists self',
    drive (num := F) ((lit 0.2, lit 0) :: nil) init = Normal self' /\
    reachable self'.
Proof.
  intros F.
  split; [reflexivity|]. split; [reflexivity|].
  split; [apply reachable_init|].
  exact (@run_from_the_constructor_never_raises
           sin_first_order rounded_square
           ((lit 0.2, lit 0) :: nil) init eq_refl eq_refl reachable_init).
Defined.


Lemma nan_velocity_is_absorbing_witness :
  let F := float_number sin_first_order rounded_square in
  let self := set_w_e (set_v (@init pynum F) (numpy nan)) (numpy 100) in
  class_of (v self) = NpFloat64 /\
  class_of (w_e self) = NpFloat64 /\
  value (v self) = nan /\
  exists self',
    drive (num := F) ((lit 0.2, lit 0) :: nil) self = Normal self' /\
    value (v self') = nan /\
    ((lit (Number := F) 0.2, lit (Number := F) 0) :: nil <> nil ->
     value (x self') = nan /\ value (a self') = nan /\
     value (w_e_dot self') = nan).
Proof.
  intros F self.
  split; [reflexivity|]. split; [reflexivity|]. split; [reflexivity|].
  exact (@nan_velocity_is_absorbing sin_first_order rounded_square
           ((lit 0.2, lit 0) :: nil) self eq_refl eq_refl eq_refl).
Defined.

Lemma constant_cell_runs_witness :
  let F := float_number sin_first_order rounded_square in
  PrimFloat.is_infinity (rounded_square 5) = false /\
  PrimFloat.is_infinity (rounded_square 100) = false /\
  exists vars : @Constant.variables pynum,
    Constant.cell (num := F) 3 = Done vars /\
    steps (num := F) 3 init (lit 0.2) (lit 0)
    = Normal (Constant.model vars) /\
    length (Constant.v_data vars) = 3%nat /\
    forall i, (i < 3)%nat ->
      exists self,
        steps (num := F) i init (lit 0.2) (lit 0) = Normal self /\
        nth_error (Constant.v_data vars) i = Some (numpy (value (v self))).
Proof.
  intros F.
  split; [reflexivity|]. split; [reflexivity|].
  exact (@constant_cell_runs sin_first_order rounded_square
           eq_refl eq_refl 3).
Defined.

Lemma ramp_cell_runs_and_replays_witness :
  let F := float_number sin_first_order rounded_square in
  let N := float_numpy atan_first_order in
  let vars :=
    {| Ramp.model := @init pynum F;
       Ramp.throttle := lit (Number := F) 0.2;
       Ramp.alpha := lit (Number := F) 0;
       Ramp.throttle_data := nil; Ramp.alpha_data := nil;
       Ramp.v_data := nil; Ramp.x_data := nil |} in
  PrimFloat.is_infinity (rounded_square 5) = false /\
  PrimFloat.is_infinity (rounded_square 100) = false /\
  reachable (num := F) (Ramp.model vars) /\
  exists vars',
    Ramp.cell (num := F) (np := N) 3 vars = Done vars' /\
    length (Ramp.throttle_data vars') = 3%nat /\
    drive (num := F)
      (combine (Ramp.throttle_data vars') (Ramp.alpha_data vars')) init
    = Normal (Ramp.model vars').
Proof.
  intros F N vars.
  split; [reflexivity|]. split; [reflexivity|].
  split; [apply reachable_init|].
  destruct (@ramp_cell_runs_and_replays sin_first_order rounded_square
              atan_first_order eq_refl eq_refl 3 vars reachable_init)
    as (vars' & Hcell & Hlen & _ & _ & _ & Hrun & _).
  exists vars'. split; [exact Hcell|]. split; [exact Hlen | exact Hrun].
Defined.

End RunWitnesses.

(** * Part IV: how a call of [step] ends in binary64, and what it reports *)

(** ** The logged call *)

Section Logged.

Variables libm_sin libm_pow2 : float -> float.

#[local] Hint Extern 0 (Number pynum) =>
  exact (float_number libm_sin libm_pow2) : typeclass_instances.

Implicit Types self : Vehicle pynum.

Local Open Scope list_scope.

Lemma snd_after (A : Type) (w : list RuntimeWarning) (k : logged A) :
  snd (after w k) = snd k.
Proof. reflexivity. Qed.

(** The logged call ends as the call does, on the same object. *)
Lemma step_logged_outcome self (throttle alpha : pynum) :
  snd (step_logged libm_sin libm_pow2 self throttle alpha)
  = step self throttle alpha.
Proof.
  unfold step_logged, step.
  unfold logged_add, logged_sub, logged_mul, logged_div, logged_sqr,
    logged_sin.
  cbn [div sqr add sub mul leb np_sin float_number].
  repeat first
    [ rewrite snd_after
    | match goal with
      | |- context [match ?e with Ok _ => _ | Raise _ => _ end] =>
          destruct e
      end ];
    reflexivity.
Qed.

Lemma in_after_l (A : Type) (r : RuntimeWarning) (w : list RuntimeWarning)
  (k : logged A) :
  In r w -> In r (fst (after w k)).
Proof. intros H. cbn [after fst]. apply in_or_app. left. exact H. Qed.

Lemma in_after_r (A : Type) (r : RuntimeWarning) (w : list RuntimeWarning)
  (k : logged A) :
  In r (fst k) -> In r (fst (after w k)).
Proof. intros H. cbn [after fst]. apply in_or_app. right. exact H. Qed.

Lemma zero_is_finite (z : float) :
  PrimFloat.is_zero z = true ->
  PrimFloat.is_nan z = false /\ PrimFloat.is_finite z = true.
Proof.
  intros Hz. destruct (zero_cases Hz) as [-> | ->]; split; reflexivity.
Qed.

(** numpy's division by a zero reports it: an invalid operation for a zero
    dividend, a division by zero for another finite one. *)
Lemma zero_divisor_warns (n d : pynum) :
  result_class (class_of n) (class_of d) = NpFloat64 ->
  PrimFloat.is_zero (value d) = true ->
  PrimFloat.is_finite (value n) = true ->
  binop_warnings true PrimFloat.div n d = invalid :: nil \/
  binop_warnings true PrimFloat.div n d = divide_by_zero :: nil.
Proof.
  intros Hk Hz Hn. unfold binop_warnings, ieee_warnings. rewrite Hk, Hz, Hn.
  destruct (zero_is_finite Hz) as [Hnan Hfin]. rewrite Hnan, Hfin.
  assert (Hnn : PrimFloat.is_nan (value n) = false).
  { unfold PrimFloat.is_finite in Hn.
    destruct (PrimFloat.is_nan (value n)); [discriminate Hn | reflexivity]. }
  rewrite Hnn. cbn [negb andb].
  destruct (div_by_zero (value n) Hz) as [E|[E|E]]; rewrite E;
    [right | right | left]; reflexivity.
Qed.

(** What the slip-ratio division emits, the call emits. *)
Lemma slip_division_warning self (throttle alpha : pynum)
  (r : RuntimeWarning) :
  In r (binop_warnings true PrimFloat.div
          (GR self * w_e self * r_e self - v self)%py (v self)) ->
  In r (fst (step_logged libm_sin libm_pow2 self throttle alpha)).
Proof.
  intros Hr. unfold step_logged.
  unfold logged_add at 1, logged_mul at 1 2 3, logged_sub at 1,
    logged_div at 1.
  cbn [set_x GR w_e r_e v].
  do 5 apply in_after_r.
  match goal with
  | |- context [match float_div ?n ?d with Ok _ => _ | Raise _ => _ end] =>
      destruct (float_div n d)
  end; cbv beta iota; [apply in_after_l|]; exact Hr.
Qed.

(** With a [numpy.float64] zero for velocity and a finite dividend, the
    call emits numpy's warning of the slip-ratio division. *)
Lemma step_zero_velocity_warns self (throttle alpha : pynum) :
  class_of (v self) = NpFloat64 ->
  PrimFloat.is_zero (value (v self)) = true ->
  PrimFloat.is_finite
    (value (GR self * w_e self * r_e self - v self)%py) = true ->
  let warnings :=
    fst (step_logged libm_sin libm_pow2 self throttle alpha) in
  In invalid warnings \/ In divide_by_zero warnings.
Proof.
  intros Hv Hz Hn warnings.
  destruct (@zero_divisor_warns
              (GR self * w_e self * r_e self - v self)%py (v self))
    as [Hw|Hw]; try assumption.
  - cbn [class_of binop sub float_number]. rewrite Hv.
    apply result_class_numpy_r.
  - left. apply slip_division_warning. rewrite Hw. left. reflexivity.
  - right. apply slip_division_warning. rewrite Hw. left. reflexivity.
Qed.

End Logged.


(** ** Where a call raises *)

Section Raising.

Variables libm_sin libm_pow2 : float -> float.

#[local] Hint Extern 0 (Number pynum) =>
  exact (float_number libm_sin libm_pow2) : typeclass_instances.

Implicit Types self : Vehicle pynum.

Local Open Scope list_scope.

Ltac attributes :=
  cbn [set_x set_v set_a set_w_e set_w_e_dot
       a_0 a_1 a_2 GR r_e J_e m g c_a c_r1 c F_max
       x v a w_e w_e_dot sample_time].

Ltac classes :=
  cbn [class_of value binop numpy python];
  repeat match goal with
         | H : class_of _ = _ |- _ => rewrite H
         end;
  repeat rewrite result_class_numpy_r;
  cbn [result_class].

Lemma float_sqr_overflow (n : pynum) :
  float_sqr libm_pow2 n
  = if python_overflow libm_pow2 n then Raise OverflowError
    else Ok {| class_of := class_of n; value := libm_pow2 (value n) |}.
Proof.
  unfold float_sqr, python_overflow.
  destruct (class_of n); [destruct (_ && _)|]; reflexivity.
Qed.

Lemma float_div_class (n d : pynum) :
  float_div n d
  = match result_class (class_of n) (class_of d) with
    | PyFloat =>
        if PrimFloat.is_zero (value d) then Raise ZeroDivisionError
        else Ok (python (PrimFloat.div (value n) (value d)))
    | NpFloat64 => Ok (numpy (PrimFloat.div (value n) (value d)))
    end.
Proof. reflexivity. Qed.

(** How a call ends with the constructor's parameters, by the classes and
    the values of [v] and [w_e]: the slip-ratio division, the square of
    [v] and the square of [w_e] are the three operations that can raise,
    in this order; the divisions by [m] and [J_e] are numpy's, [F_load]
    holding [np.sin]'s result. *)
Lemma step_cases self (throttle alpha : pynum) :
  same_parameters init self ->
  let self1 := set_x self (x self + v self * sample_time self)%py in
  let self2 := set_v self1 (v self + a self * sample_time self)%py in
  if zero_division self then
    step self throttle alpha = Raised ZeroDivisionError self1
  else if python_overflow libm_pow2 (v self) then
    step self throttle alpha = Raised OverflowError self1
  else if python_overflow libm_pow2 (w_e self) then
    exists a', step self throttle alpha = Raised OverflowError (set_a self2 a')
  else
    exists self', step self throttle alpha = Normal self'.
Proof.
  intros Hp self1 self2.
  destruct (default_floats Hp) as (HGR & Hre & _).
  unfold step, zero_division. attributes.
  cbn [div sqr add sub mul leb np_sin float_number].
  rewrite (float_div_class _ (v self)). cbn [class_of value binop].
  rewrite HGR, Hre.
  cbn [class_of python].
  destruct (class_of (v self)) eqn:Hv, (class_of (w_e self)) eqn:Hw;
    cbn [result_class].
  all: try (destruct (PrimFloat.is_zero (value (v self))); [reflexivity|]).
  all: rewrite (float_sqr_overflow (v self));
    destruct (python_overflow libm_pow2 (v self)); [reflexivity|].
  all: rewrite float_div_numpy by (classes; reflexivity).
  all: attributes; rewrite (float_sqr_overflow (w_e self));
    destruct (python_overflow libm_pow2 (w_e self));
    [eexists; reflexivity|].
  all: rewrite float_div_numpy by (classes; reflexivity).
  all: eexists; reflexivity.
Qed.

(** C10: in binary64, with the constructor's parameters and a velocity
    that is no zero, [step] never raises [ZeroDivisionError]: the
    divisors are [v], [m = 2000] and [J_e = 10].  It can still fail, with
    [OverflowError] and in no other way: at [self.v**2], [x] alone having
    been assigned, when [v] is a Python float whose square overflows;
    else at [self.w_e**2], [x], [v] and [a] having been assigned, when
    [w_e] is such a float; else it returns.  On an object reached from
    the constructor by [step] and [reset] calls it returns (the squares of
    5 and 100 being finite). *)
Theorem step_fails_by_overflow_only_away_from_zero
  self (throttle alpha : pynum) :
  same_parameters init self ->
  PrimFloat.is_zero (value (v self)) = false ->
  let self1 := set_x self (x self + v self * sample_time self)%py in
  let self2 := set_v self1 (v self + a self * sample_time self)%py in
  m self = python 2000 /\ J_e self = python 10 /\
  (forall self', step self throttle alpha <> Raised ZeroDivisionError self') /\
  (python_overflow libm_pow2 (v self) = true ->
   step self throttle alpha = Raised OverflowError self1) /\
  (python_overflow libm_pow2 (v self) = false ->
   python_overflow libm_pow2 (w_e self) = true ->
   exists a', step self throttle alpha = Raised OverflowError (set_a self2 a'))
  /\
  (python_overflow libm_pow2 (v self) = false ->
   python_overflow libm_pow2 (w_e self) = false ->
   exists self', step self throttle alpha = Normal self') /\
  (reachable self ->
   PrimFloat.is_infinity (libm_pow2 5) = false ->
   PrimFloat.is_infinity (libm_pow2 100) = false ->
   exists self', step self throttle alpha = Normal self').
Proof.
  intros Hp Hz self1 self2.
  pose proof (step_cases throttle alpha Hp) as H. cbv zeta in H.
  fold self1 self2 in H.
  assert (HZ : zero_division self = false).
  { unfold zero_division. rewrite Hz.
    destruct (class_of (v self)), (class_of (w_e self)); reflexivity. }
  rewrite HZ in H.
  split; [apply (default_floats Hp)|].
  split.
  { destruct Hp as (_ & _ & _ & _ & _ & HJ & _). rewrite HJ. reflexivity. }
  split.
  { intros self' E.
    destruct (python_overflow libm_pow2 (v self));
      [|destruct (python_overflow libm_pow2 (w_e self))].
    - rewrite H in E. discriminate E.
    - destruct H as (a' & H). rewrite H in E. discriminate E.
    - destruct H as (self'' & H). rewrite H in E. discriminate E. }
  split; [intros E; rewrite E in H; exact H|].
  split; [intros E E'; rewrite E, E' in H; exact H|].
  split; [intros E E'; rewrite E, E' in H; exact H|].
  intros Hr H5 H100. exact (reachable_step_normal H5 H100 throttle alpha Hr).
Qed.

(** X3: in binary64, with the constructor's parameters, [step] raises
    exactly when [v] and [w_e] are Python numbers and [v] is a zero, or
    [v] is a Python float whose square overflows, or [w_e] is one; the
    exception is [ZeroDivisionError] in the first case and
    [OverflowError] in the other two.  With a [numpy.float64] for [v]
    or for [w_e], a zero velocity raises nothing. *)
Theorem step_raises_exactly self (throttle alpha : pynum) :
  same_parameters init self ->
  ((exists e self', step self throttle alpha = Raised e self') <->
   (zero_division self = true \/
    python_overflow libm_pow2 (v self) = true \/
    python_overflow libm_pow2 (w_e self) = true)) /\
  (forall e self',
     step self throttle alpha = Raised e self' ->
     e = if zero_division self then ZeroDivisionError else OverflowError) /\
  (zero_division self = true <->
   class_of (v self) = PyFloat /\ class_of (w_e self) = PyFloat /\
   PrimFloat.is_zero (value (v self)) = true).
Proof.
  intros Hp.
  pose proof (step_cases throttle alpha Hp) as H. cbv zeta in H.
  split; [|split].
  - destruct (zero_division self);
      [|destruct (python_overflow libm_pow2 (v self));
        [|destruct (python_overflow libm_pow2 (w_e self))]].
    + split; [auto|]. intros _. eexists; eexists. exact H.
    + split; [auto|]. intros _. eexists; eexists. exact H.
    + split; [auto|]. intros _. destruct H as (a' & H).
      eexists; eexists. exact H.
    + destruct H as (self'' & H). split.
      * intros (e & self' & E). rewrite H in E. discriminate E.
      * intros [E|[E|E]]; discriminate E.
  - intros e self' E.
    destruct (zero_division self);
      [|destruct (python_overflow libm_pow2 (v self));
        [|destruct (python_overflow libm_pow2 (w_e self))]].
    + rewrite H in E. now injection E as <- _.
    + rewrite H in E. now injection E as <- _.
    + destruct H as (a' & H). rewrite H in E. now injection E as <- _.
    + destruct H as (self'' & H). rewrite H in E. discriminate E.
  - unfold zero_division.
    destruct (class_of (v self)), (class_of (w_e self));
      split; try tauto; try discriminate;
      intros (E1 & E2 & _); discriminate.
Qed.

End Raising.

(** ** What a call depends on *)

Section Values.

Variables libm_sin libm_pow2 : float -> float.

#[local] Hint Extern 0 (Number pynum) =>
  exact (float_number libm_sin libm_pow2) : typeclass_instances.

Implicit Types self : Vehicle pynum.

Local Open Scope list_scope.

Ltac attributes :=
  cbn [set_x set_v set_a set_w_e set_w_e_dot
       a_0 a_1 a_2 GR r_e J_e m g c_a c_r1 c F_max
       x v a w_e w_e_dot sample_time].


End Values.

(** ** Concrete calls *)

Section EndingWitnesses.

Local Open Scope list_scope.




(** A Python float of velocity [2^512], which is no zero: the call raises
    [OverflowError] at [self.v**2]; and an engine speed of [1e200] at the
    constructor's velocity 5: the call raises it at [self.w_e**2]. *)
Lemma nonzero_velocity_overflows :
  let F := float_number sin_first_order rounded_square in
  let fast := set_v (@init pynum F) (python 0x1p+512) in
  let revved := set_w_e (@init pynum F) (python 1e200) in
  (same_parameters (@init pynum F) fast /\
   PrimFloat.is_zero (value (v fast)) = false /\
   step (num := F) fast (lit 0.2) (lit 0)
   = Raised OverflowError
       (set_x fast (x fast + v fast * sample_time fast)%py)) /\
  (same_parameters (@init pynum F) revved /\
   PrimFloat.is_zero (value (v revved)) = false /\
   exists a',
     step (num := F) revved (lit 0.2) (lit 0)
     = Raised OverflowError
         (set_a
            (set_v
               (set_x revved (x revved + v revved * sample_time revved)%py)
               (v revved + a revved * sample_time revved)%py)
            a')) /\
  (forall libm_sin libm_pow2 : float -> float,
     libm_pow2 0x1p+512%float = infinity ->
     let F := float_number libm_sin libm_pow2 in
     step (num := F) (set_v init (python 0x1p+512)) (lit 0.2) (lit 0)
     = Raised OverflowError
         (set_x (set_v init (python 0x1p+512))
                (python 0x1.47ae147ae147bp+505))).
Proof.
  intros F fast revved.
  split; [|split].
  - split; [repeat split|]. split; reflexivity.
  - split; [repeat split|]. split; [reflexivity|].
    eexists. vm_compute. reflexivity.
  - intros libm_sin libm_pow2 H G. subst G.
    vm_compute. rewrite H. vm_compute. reflexivity.
Qed.

Lemma step_fails_by_overflow_only_away_from_zero_witness :
  let F := float_number sin_first_order rounded_square in
  let self := set_v (@init pynum F) (python 0x1p+512) in
  let self1 := set_x self (x self + v self * sample_time self)%py in
  let self2 := set_v self1 (v self + a self * sample_time self)%py in
  same_parameters (@init pynum F) self /\
  PrimFloat.is_zero (value (v self)) = false /\
  m self = python 2000 /\ J_e self = python 10 /\
  (forall self',
     step (num := F) self (lit 0.2) (lit 0) <> Raised ZeroDivisionError self')
  /\
  (python_overflow rounded_square (v self) = true ->
   step (num := F) self (lit 0.2) (lit 0) = Raised OverflowError self1) /\
  (python_overflow rounded_square (v self) = false ->
   python_overflow rounded_square (w_e self) = true ->
   exists a',
     step (num := F) self (lit 0.2) (lit 0)
     = Raised OverflowError (set_a self2 a'))
  /\
  (python_overflow rounded_square (v self) = false ->
   python_overflow rounded_square (w_e self) = false ->
   exists self', step (num := F) self (lit 0.2) (lit 0) = Normal self') /\
  (reachable self ->
   PrimFloat.is_infinity (rounded_square 5) = false ->
   PrimFloat.is_infinity (rounded_square 100) = false ->
   exists self', step (num := F) self (lit 0.2) (lit 0) = Normal self').
Proof.
  intros F self self1 self2.
  assert (Hp : same_parameters (@init pynum F) self) by (repeat split).
  split; [exact Hp|]. split; [reflexivity|].
  exact (@step_fails_by_overflow_only_away_from_zero
           sin_first_order rounded_square self (lit 0.2) (lit 0)
           Hp eq_refl).
Defined.

Lemma step_raises_exactly_witness :
  let F := float_number sin_first_order rounded_square in
  let self := set_w_e (@init pynum F) (python 1e200) in
  same_parameters (@init pynum F) self /\
  ((exists e self', step (num := F) self (lit 0.2) (lit 0) = Raised e self')
   <->
   (zero_division self = true \/
    python_overflow rounded_square (v self) = true \/
    python_overflow rounded_square (w_e self) = true)) /\
  (forall e self',
     step (num := F) self (lit 0.2) (lit 0) = Raised e self' ->
     e = if zero_division self then ZeroDivisionError else OverflowError) /\
  (zero_division self = true <->
   class_of (v self) = PyFloat /\ class_of (w_e self) = PyFloat /\
   PrimFloat.is_zero (value (v self)) = true).
Proof.
  intros F self.
  assert (Hp : same_parameters (@init pynum F) self) by (repeat split).
  split; [exact Hp|].
  exact (@step_raises_exactly sin_first_order rounded_square
           self (lit 0.2) (lit 0) Hp).
Defined.

End EndingWitnesses.
